(** * Newsletter query pipeline: a shallow embedding of [main.py]

    The service turns a [Query] into a [Pitch], an [EmailDraft] and a
    [SentRecord]; every handler of [main.py] reads and writes a document
    store through the module [database] and through pymongo collections.

    The handlers are embedded as computations in a state-and-exception
    monad over the store.  Python exceptions are values of [exn];
    [try_except] is the [try: ... except Exception as e: ...] statement. *)

From stdpp Require Import base decidable option list strings numbers pretty.
From Stdlib Require Import ZArith Ascii String Lia.

Local Open Scope string_scope.
Local Open Scope list_scope.
Local Open Scope Z_scope.

(** ** Python values held by documents *)

(** A BSON ObjectId, kept as the number its 24 hexadecimal digits spell. *)
Definition oid := N.

(** A stored timestamp, in the millisecond resolution the store keeps. *)
Definition datetime := Z.

(** What a document field can hold: [None], a [str] or an [ObjectId]. A
    document key is an [option value]: [None] when the key is missing. *)
Inductive value :=
| VNone
| VStr (s : string)
| VOid (o : oid).

#[global] Instance value_eq_dec : EqDecision value.
Proof. solve_decision. Defined.

Definition hex_digit (d : N) : ascii :=
  nth (N.to_nat d)
      ["0"; "1"; "2"; "3"; "4"; "5"; "6"; "7"; "8"; "9";
       "a"; "b"; "c"; "d"; "e"; "f"]%char "0"%char.

Fixpoint hex_digits (k : nat) (n : N) (acc : string) : string :=
  match k with
  | O => acc
  | S k' => hex_digits k' (n / 16)%N (String (hex_digit (n mod 16)%N) acc)
  end.

(** [str(ObjectId)]: 24 lowercase hexadecimal digits. *)
Definition hex24 (o : oid) : string := hex_digits 24 o "".

(** [str(v)]. *)
Definition str (v : value) : string :=
  match v with
  | VNone => "None"
  | VStr s => s
  | VOid o => hex24 o
  end.

(** Python truthiness, as used by [not x] and [x or y]. *)
Definition truthy (v : value) : bool :=
  match v with
  | VNone => false
  | VStr s => negb (String.eqb s "")
  | VOid _ => true
  end.

(** [d.get(k)]: [None] when the key is missing. *)
Definition get (f : option value) : value := default VNone f.

(** [d.get(k, dflt)]: the default only when the key is missing. *)
Definition get_default (f : option value) (dflt : value) : value := default dflt f.

(** ** Exceptions *)

Inductive error :=
| KeyError (key : string)
| IndexError
| ValueError
| AttributeError
| TypeError
| InvalidId
| DatabaseError.

(** [HTTPException(status_code, detail)] and the built-in exceptions.  The
    detail of a re-raised exception is [str(e)] of the caught one. *)
Inductive exn :=
| HTTPException (status_code : Z) (detail : detail)
| Error (e : error)
with detail :=
| Text (s : string)
| StrOf (e : exn).

Inductive result (A : Type) :=
| Return (a : A)
| Raise (e : exn).
Arguments Return {A} a.
Arguments Raise {A} e.

(** The status line the HTTP layer answers with: the status of an
    [HTTPException], and the generic 500 "Internal Server Error" for any
    other exception that leaves the handler. *)
Definition http_status {A} (r : result A) : Z :=
  match r with
  | Return _ => 200
  | Raise (HTTPException c _) => c
  | Raise (Error _) => 500
  end.

(** ** Documents *)

Record SettingsDoc := {
  tone : option value;
  voice : option value;
  intro_template : option value;
  signature_template : option value;
  your_name : option value;
  your_title : option value;
  your_website : option value
}.

Record QueryDoc := {
  q_id : value;
  q_subject : option value;
  sender_email : option value;
  sender_name : option value;
  received_at : option datetime;
  deadline : option datetime;
  body_text : option value;
  source_message_id : option value;
  status : option value;
  tags : list string;
  q_updated_at : option datetime
}.

Record PitchDoc := {
  p_id : value;
  p_query_id : value;
  content : option value;
  style_used : value * value;
  p_created_at : datetime
}.

Record DraftDoc := {
  d_id : value;
  d_query_id : value;
  to_email : value;
  d_subject : value;
  d_body : value;
  approved : bool;
  d_created_at : datetime;
  updated_at : option datetime
}.

Record SentDoc := {
  s_id : value;
  s_draft_id : string;
  s_to : value;
  s_subject : value;
  s_body : value;
  sent_at : datetime
}.

#[global] Instance QueryDoc_eq_dec : EqDecision QueryDoc.
Proof. solve_decision. Defined.

#[global] Instance DraftDoc_eq_dec : EqDecision DraftDoc.
Proof. solve_decision. Defined.

(** ** The store *)

Record Store := {
  settings : list SettingsDoc;
  query : list QueryDoc;
  pitch : list PitchDoc;
  emaildraft : list DraftDoc;
  sent : list SentDoc;
  next_oid : oid
}.

(** The module-level [db]: [None] when no database is configured. *)
Definition DB := option Store.

(** A named collection of the store. *)
Record Collection (A : Type) := {
  docs : Store -> list A;
  set_docs : list A -> Store -> Store
}.
Arguments docs {A} c st.
Arguments set_docs {A} c l st.

Definition settings_c : Collection SettingsDoc :=
  {| docs := settings;
     set_docs l st := {| settings := l; query := query st; pitch := pitch st;
                         emaildraft := emaildraft st; sent := sent st;
                         next_oid := next_oid st |} |}.

Definition query_c : Collection QueryDoc :=
  {| docs := query;
     set_docs l st := {| settings := settings st; query := l; pitch := pitch st;
                         emaildraft := emaildraft st; sent := sent st;
                         next_oid := next_oid st |} |}.

Definition pitch_c : Collection PitchDoc :=
  {| docs := pitch;
     set_docs l st := {| settings := settings st; query := query st; pitch := l;
                         emaildraft := emaildraft st; sent := sent st;
                         next_oid := next_oid st |} |}.

Definition emaildraft_c : Collection DraftDoc :=
  {| docs := emaildraft;
     set_docs l st := {| settings := settings st; query := query st; pitch := pitch st;
                         emaildraft := l; sent := sent st;
                         next_oid := next_oid st |} |}.

Definition sent_c : Collection SentDoc :=
  {| docs := sent;
     set_docs l st := {| settings := settings st; query := query st; pitch := pitch st;
                         emaildraft := emaildraft st; sent := l;
                         next_oid := next_oid st |} |}.

Definition bump_oid (st : Store) : Store :=
  {| settings := settings st; query := query st; pitch := pitch st;
     emaildraft := emaildraft st; sent := sent st;
     next_oid := N.succ (next_oid st) |}.

(** ** The handler monad: store state that survives exceptions *)

Definition M (A : Type) : Type := DB -> result A * DB.

Definition ret {A} (a : A) : M A := fun db => (Return a, db).

Definition raise {A} (e : exn) : M A := fun db => (Raise e, db).

Definition bind {A B} (m : M A) (k : A -> M B) : M B :=
  fun db =>
    match m db with
    | (Return a, db') => k a db'
    | (Raise e, db') => (Raise e, db')
    end.

(** [try: m except Exception as e: h e].  Every member of [exn] is an
    [Exception], [HTTPException] included. *)
Definition try_except {A} (m : M A) (h : exn -> M A) : M A :=
  fun db =>
    match m db with
    | (Return a, db') => (Return a, db')
    | (Raise e, db') => h e db'
    end.

Declare Scope handler_scope.
Delimit Scope handler_scope with handler.
Notation "'do' x <- m ;; k" := (bind m (fun x => k))
  (at level 10, x name, m at level 99, k at level 200) : handler_scope.
Local Open Scope handler_scope.

(** ** The module [database] and the pymongo calls *)

(** Modelled from the spec: [database.create_document] is not among the
    sources.  It inserts the document into the named collection under a
    store-assigned unique identifier (an ObjectId) and returns that
    identifier as a string; it raises when [db] is [None]. *)
Definition create_document {A} (c : Collection A) (data : value -> A) : M string :=
  fun db =>
    match db with
    | None => (Raise (Error DatabaseError), db)
    | Some st =>
        let _id := VOid (next_oid st) in
        (Return (str _id),
         Some (set_docs c (docs c st ++ [data _id]) (bump_oid st)))
    end.

(** Modelled from the spec: [database.get_documents] is not among the
    sources.  It reads, in the store's order, up to [limit] documents of
    the named collection that match the filter; it raises when [db] is
    [None]. *)
Definition get_documents {A} (c : Collection A) (filter_dict : A -> bool)
    (limit : nat) : M (list A) :=
  fun db =>
    match db with
    | None => (Raise (Error DatabaseError), db)
    | Some st => (Return (take limit (List.filter filter_dict (docs c st))), db)
    end.

(** [db[name]]: subscripting [None] is a [TypeError]. *)
Definition db_getitem : M unit :=
  fun db =>
    match db with
    | None => (Raise (Error TypeError), db)
    | Some _ => (Return tt, db)
    end.

Definition hex_value (c : ascii) : option N :=
  let n := N_of_ascii c in
  if (48 <=? n)%N && (n <=? 57)%N then Some (n - 48)%N
  else if (97 <=? n)%N && (n <=? 102)%N then Some (n - 87)%N
  else if (65 <=? n)%N && (n <=? 70)%N then Some (n - 55)%N
  else None.

Fixpoint parse_hex (s : string) (acc : N) : option N :=
  match s with
  | EmptyString => Some acc
  | String c r =>
      match hex_value c with
      | Some d => parse_hex r (acc * 16 + d)%N
      | None => None
      end
  end.

(** The ObjectId a string spells: it must be 24 hexadecimal digits.  bson
    checks the length and decodes with [bytes.fromhex], which also skips
    ASCII whitespace between two-digit groups and then gives an identifier
    of fewer than 12 bytes; identifiers are numbers here, so such strings
    have no ObjectId in this model and every statement that depends on
    the parsed identifier is about strings of 24 digits. *)
Definition parse_oid (s : string) : option oid :=
  if (String.length s =? 24)%nat then parse_hex s 0 else None.

(** [bson.ObjectId(s)]. *)
Definition ObjectId (s : string) : M oid :=
  match parse_oid s with
  | Some o => ret o
  | None => raise (Error InvalidId)
  end.

(** The first document matching [flt], replaced by [upd] of it. *)
Fixpoint update_first {A} (flt : A -> bool) (upd : A -> A) (l : list A)
    : option A * list A :=
  match l with
  | [] => (None, [])
  | d :: r =>
      if flt d then (Some d, upd d :: r)
      else let '(m, r') := update_first flt upd r in (m, d :: r')
  end.

Record UpdateResult := {
  matched_count : Z;
  modified_count : Z
}.

(** [db[name].update_one(flt, {"$set": ...})]: the first match is updated;
    [modified_count] counts it only when the update changed the document. *)
Definition update_one {A} `{EqDecision A} (c : Collection A) (flt : A -> bool)
    (upd : A -> A) : M UpdateResult :=
  fun db =>
    match db with
    | None => (Raise (Error TypeError), db)
    | Some st =>
        match update_first flt upd (docs c st) with
        | (None, _) => (Return {| matched_count := 0; modified_count := 0 |}, db)
        | (Some d, l') =>
            (Return {| matched_count := 1;
                       modified_count := if decide (upd d = d) then 0 else 1 |},
             Some (set_docs c l' st))
        end
    end.

(** [db[name].find_one(flt)]. *)
Definition find_one {A} (c : Collection A) (flt : A -> bool) : M (option A) :=
  fun db =>
    match db with
    | None => (Raise (Error TypeError), db)
    | Some st => (Return (List.find flt (docs c st)), db)
    end.

(** Equality match of a filter value against a stored value. *)
Definition value_eqb (a b : value) : bool := bool_decide (a = b).

(** The filter [{"_id": ObjectId(draft_id)}] on a draft. *)
Definition draft_id_is (o : oid) (d : DraftDoc) : bool := value_eqb (VOid o) (d_id d).

(** The filter [{"_id": v}] on a query. *)
Definition query_id_is (v : value) (q : QueryDoc) : bool := value_eqb v (q_id q).

(** ** Request and response bodies *)

Record ApproveDraftRequest := { a_draft_id : string; a_approved : bool }.
Record SendEmailRequest := { s_req_draft_id : string }.
Record ApproveResponse := { updated : bool }.
Record SendResponse := { sent_id : string }.

(** ** [approve_draft] (POST /approve) *)

Definition set_approval (a : bool) (now : datetime) (d : DraftDoc) : DraftDoc :=
  {| d_id := d_id d; d_query_id := d_query_id d; to_email := to_email d;
     d_subject := d_subject d; d_body := d_body d;
     approved := a; d_created_at := d_created_at d; updated_at := Some now |}.

Definition approve_draft (now : datetime) (req : ApproveDraftRequest)
    : M ApproveResponse :=
  try_except
    (do _ <- db_getitem ;;
     do _id <- ObjectId (a_draft_id req) ;;
     do result <- update_one emaildraft_c (draft_id_is _id)
                    (set_approval (a_approved req) now) ;;
     if Z.eqb (matched_count result) 0
     then raise (HTTPException 404 (Text "Draft not found"))
     else ret {| updated := negb (Z.eqb (modified_count result) 0) |})
    (fun e => raise (HTTPException 500 (StrOf e))).

(** ** [send_email] (POST /send) *)

Definition set_status_sent (now : datetime) (q : QueryDoc) : QueryDoc :=
  {| q_id := q_id q; q_subject := q_subject q; sender_email := sender_email q;
     sender_name := sender_name q; received_at := received_at q;
     deadline := deadline q; body_text := body_text q;
     source_message_id := source_message_id q;
     status := Some (VStr "sent"); tags := tags q;
     q_updated_at := Some now |}.

Definition send_email (now_sent now_updated : datetime) (req : SendEmailRequest)
    : M SendResponse :=
  try_except
    (do _ <- db_getitem ;;
     do oid_ <- ObjectId (s_req_draft_id req) ;;
     do found <- find_one emaildraft_c (draft_id_is oid_) ;;
     match found with
     | None => raise (HTTPException 404 (Text "Draft not found"))
     | Some draft =>
         if negb (approved draft)
         then raise (HTTPException 400 (Text "Draft not approved"))
         else
           let send_record _id :=
             {| s_id := _id;
                s_draft_id := str (d_id draft);
                s_to := to_email draft;
                s_subject := d_subject draft;
                s_body := d_body draft;
                sent_at := now_sent |} in
           do _id <- create_document sent_c send_record ;;
           do _r <- update_one query_c (query_id_is (d_query_id draft))
                     (set_status_sent now_updated) ;;
           ret {| sent_id := _id |}
     end)
    (fun e => raise (HTTPException 500 (StrOf e))).

(** ** [parse_newsletters] (POST /parse) *)

Record ParseRequest := { limit : Z }.
Record ParseResponse := { inserted : Z; ids : list string }.

Definition LF : string := String (ascii_of_nat 10) "".

(** [str(n)] of an [int]. *)
Definition str_int (n : Z) : string := pretty n.

(** [now.replace(microsecond=0)]: the timestamp cut to whole seconds. *)
Definition replace_microsecond_0 (now : datetime) : datetime := now - now mod 1000.

Definition sample_item (now : datetime) (i : Z) (_id : value) : QueryDoc :=
  {| q_id := _id;
     q_subject := Some (VStr ("Call for psychology expert comment #" +:+ str_int (i + 1)));
     sender_email := Some (VStr ("editor" +:+ str_int (i + 1) +:+ "@newsletter.com"));
     sender_name := Some (VStr "Newsletter Editor");
     received_at := Some now;
     deadline := Some (replace_microsecond_0 now);
     body_text := Some (VStr "We're seeking a psychologist's perspective on workplace burnout and coping strategies.");
     source_message_id := Some (VStr ("sim-" +:+ str_int (i + 1)));
     status := Some (VStr "new");
     tags := ["psych"; "newsletter"];
     q_updated_at := None |}.

(** [range(n)]. *)
Definition range (n : Z) : list Z := seqZ 0 n.

(** The second loop of [parse_newsletters]: one insert per item, the first
    failure re-raised as a 500. *)
Fixpoint insert_items (items : list (value -> QueryDoc)) (inserted_ids : list string)
    : M (list string) :=
  match items with
  | [] => ret inserted_ids
  | item :: rest =>
      do _id <- try_except (create_document query_c item)
                  (fun e => raise (HTTPException 500 (StrOf e))) ;;
      insert_items rest (inserted_ids ++ [_id])
  end.

Definition parse_newsletters (now : datetime) (req : ParseRequest) : M ParseResponse :=
  let sample_items := map (sample_item now) (range (limit req)) in
  do inserted_ids <- insert_items sample_items [] ;;
  ret {| inserted := Z.of_nat (List.length inserted_ids); ids := inserted_ids |}.

(** ** [generate_pitch] (POST /pitch) *)

(** The request of /pitch and /draft; its [parameters] dict is never read. *)
Record GeneratePitchRequest := { query_id : string }.
Record PitchResponse := { pitch_id : string; pitch_content : string }.

Definition default_intro_template : string :=
  "Hi {name}," +:+ LF +:+ LF +:+ "Thanks for reaching out. I'm {your_name}, a {your_title}.".

Definition default_signature_template : string :=
  LF +:+ LF +:+ "Best," +:+ LF +:+ "{your_name}" +:+ LF +:+ "{your_title}" +:+ LF +:+ "{your_website}".

(** The style [generate_pitch] falls back to without a settings document. *)
Definition pitch_default_style : SettingsDoc :=
  {| tone := Some (VStr "friendly");
     voice := Some (VStr "First-person expert but approachable");
     intro_template := Some (VStr default_intro_template);
     signature_template := Some (VStr default_signature_template);
     your_name := Some (VStr "Your Name");
     your_title := Some (VStr "Licensed Psychologist");
     your_website := Some (VStr "yourwebsite.com") |}.

(** [settings_docs[0] if settings_docs else dflt]. *)
Definition first_or (settings_docs : list SettingsDoc) (dflt : SettingsDoc) : SettingsDoc :=
  match settings_docs with
  | d :: _ => d
  | [] => dflt
  end.

(** [sep.join(lines)]. *)
Fixpoint join (sep : string) (lines : list string) : string :=
  match lines with
  | [] => ""
  | [l] => l
  | l :: rest => l +:+ sep +:+ join sep rest
  end.

Definition formal_sentence : string :=
  "I would be pleased to provide a concise, research-informed statement.".
Definition confident_sentence : string :=
  "I regularly comment for national outlets and can deliver a crisp quote.".
Definition fallback_sentence : string :=
  "Happy to share a tight quote that serves your readers.".

(** The tone-conditioned last line of the pitch. *)
Definition closing_sentence (style : SettingsDoc) : string :=
  if value_eqb (get (tone style)) (VStr "formal") then formal_sentence
  else if value_eqb (get (tone style)) (VStr "confident") then confident_sentence
  else fallback_sentence.

Definition pitch_lines (style : SettingsDoc) (target : QueryDoc) : list string :=
  let subject := get_default (q_subject target) (VStr "") in
  ["Regarding: " +:+ str subject;
   "";
   "Key points I can contribute:";
   "- Evidence-based insights on burnout and coping";
   "- Practical takeaways grounded in CBT and behavioral science";
   "- Availability for quick follow-up if needed"]
  ++ [closing_sentence style].

(** [next((d for d in docs if str(d.get("_id")) == query_id), None)]. *)
Definition find_query (docs : list QueryDoc) (query_id : string) : option QueryDoc :=
  List.find (fun d => String.eqb (str (q_id d)) query_id) docs.

Definition generate_pitch (now : datetime) (req : GeneratePitchRequest) : M PitchResponse :=
  do settings_docs <- get_documents settings_c (fun _ => true) 1 ;;
  let style := first_or settings_docs pitch_default_style in
  do docs <- get_documents query_c (fun _ => true) 200 ;;
  match find_query docs (query_id req) with
  | None => raise (HTTPException 404 (Text "Query not found"))
  | Some target =>
      let content_ := join LF (pitch_lines style target) in
      let doc _id :=
        {| p_id := _id;
           p_query_id := VStr (query_id req);
           content := Some (VStr content_);
           style_used := (get (tone style), get (voice style));
           p_created_at := now |} in
      try_except
        (do pitch_id_ <- create_document pitch_c doc ;;
         ret {| pitch_id := pitch_id_; pitch_content := content_ |})
        (fun e => raise (HTTPException 500 (StrOf e)))
  end.

(** The filter [{"query_id": query_id}] on a pitch. *)
Definition pitch_query_is (query_id : string) (p : PitchDoc) : bool :=
  value_eqb (VStr query_id) (p_query_id p).

(** ** [str.format] with keyword arguments only *)

(** One piece of a format string: a literal character, or a replacement
    field [{field_name!conversion:format_spec}]. *)
Inductive markup :=
| Literal (c : ascii)
| Field (field_name : string) (conversion : option ascii) (format_spec : string).

(** Where the scanner is: in literal text, in a field name, inside the
    brackets of an index, after [!], or in a format spec at a brace depth. *)
Inductive mode :=
| InText
| InName (name : string)
| InIndex (name : string)
| AfterBang (name : string)
| InSpec (name : string) (conversion : option ascii) (spec : string) (depth : nat).

Definition snoc (s : string) (c : ascii) : string := s +:+ String c "".

Definition emit (m : markup) (r : list markup * option error)
    : list markup * option error :=
  (m :: fst r, snd r).

(** The scanner of [str.format]: the pieces read before the first
    malformed place, and the [ValueError] raised there, if any.  [{{] and
    [}}] are literal braces; a brace alone, an unclosed field, a [{] in a
    field name and a conversion not followed by [:] or [}] are errors. *)
Fixpoint scan (m : mode) (s : string) : list markup * option error :=
  match m, s with
  | InText, EmptyString => ([], None)
  | InText, String c r =>
      if Ascii.eqb c "{" then
        match r with
        | EmptyString => ([], Some ValueError)
        | String c' r' =>
            if Ascii.eqb c' "{" then emit (Literal c) (scan InText r')
            else scan (InName "") r
        end
      else if Ascii.eqb c "}" then
        match r with
        | EmptyString => ([], Some ValueError)
        | String c' r' =>
            if Ascii.eqb c' "}" then emit (Literal c) (scan InText r')
            else ([], Some ValueError)
        end
      else emit (Literal c) (scan InText r)
  | InName _, EmptyString => ([], Some ValueError)
  | InName nm, String c r =>
      if Ascii.eqb c "{" then ([], Some ValueError)
      else if Ascii.eqb c "[" then scan (InIndex (snoc nm c)) r
      else if Ascii.eqb c "}" then emit (Field nm None "") (scan InText r)
      else if Ascii.eqb c ":" then scan (InSpec nm None "" 1) r
      else if Ascii.eqb c "!" then scan (AfterBang nm) r
      else scan (InName (snoc nm c)) r
  | InIndex _, EmptyString => ([], Some ValueError)
  | InIndex nm, String c r =>
      if Ascii.eqb c "]" then scan (InName (snoc nm c)) r
      else scan (InIndex (snoc nm c)) r
  | AfterBang _, EmptyString => ([], Some ValueError)
  | AfterBang nm, String c r =>
      match r with
      | EmptyString => ([], Some ValueError)
      | String c' r' =>
          if Ascii.eqb c' "}" then emit (Field nm (Some c) "") (scan InText r')
          else if Ascii.eqb c' ":" then scan (InSpec nm (Some c) "" 1) r'
          else ([], Some ValueError)
      end
  | InSpec _ _ _ _, EmptyString => ([], Some ValueError)
  | InSpec nm cv sp depth, String c r =>
      if Ascii.eqb c "{" then scan (InSpec nm cv (snoc sp c) (S depth)) r
      else if Ascii.eqb c "}" then
        match depth with
        | 1%nat | O => emit (Field nm cv sp) (scan InText r)
        | S depth' => scan (InSpec nm cv (snoc sp c) depth') r
        end
      else scan (InSpec nm cv (snoc sp c) depth) r
  end.

(** The part of a field name before the first [.] or [[], and the rest. *)
Fixpoint field_name_split (field_name : string) : string * string :=
  match field_name with
  | EmptyString => ("", "")
  | String c r =>
      if Ascii.eqb c "." || Ascii.eqb c "[" then ("", field_name)
      else let '(first, rest) := field_name_split r in (String c first, rest)
  end.

Definition PY_SSIZE_T_MAX : Z := 2 ^ 63 - 1.

(** The decimal value of a digit.  Strings are byte strings here: only
    the ASCII digits count, where Python also counts the decimal digits of
    other scripts. *)
Definition digit_value (c : ascii) : option Z :=
  let n := Z.of_N (N_of_ascii c) in
  if ((48 <=? n) && (n <=? 57))%Z then Some (n - 48) else None.

(** Whether the first part of a field name is a positional index: [inr
    None] when some character is not a digit, [inl ValueError] when the
    digits read so far overflow. *)
Fixpoint get_integer (s : string) (acc : Z) : error + option Z :=
  match s with
  | EmptyString => inr (Some acc)
  | String c r =>
      match digit_value c with
      | None => inr None
      | Some d =>
          if ((PY_SSIZE_T_MAX - d) / 10 <? acc)%Z then inl ValueError
          else get_integer r (acc * 10 + d)
      end
  end.

Definition kwargs := list (string * value).

Fixpoint lookup_kw (key : string) (kw : kwargs) : option value :=
  match kw with
  | [] => None
  | (k, v) :: r => if String.eqb k key then Some v else lookup_kw key r
  end.

Section Format.

(** What Python does with a found argument when the field goes beyond
    a bare name: attribute and index access, [!r]/[!s]/[!a], and the
    format-spec mini-language.  The claims hold for any such behaviour. *)
Variable format_object :
  kwargs -> value -> string -> option ascii -> string -> error + string.

(** One replacement field.  No positional argument is ever passed, so an
    empty or numeric name is an [IndexError]; a name that is not a keyword
    is a [KeyError]. *)
Definition render_field (kw : kwargs) (field_name : string)
    (conversion : option ascii) (format_spec : string) : error + string :=
  let '(first, rest) := field_name_split field_name in
  match get_integer first 0 with
  | inl e => inl e
  | inr (Some _) => inl IndexError
  | inr None =>
      match lookup_kw first kw with
      | None => inl (KeyError first)
      | Some obj =>
          match rest, conversion, format_spec with
          | EmptyString, None, EmptyString => inr (str obj)
          | _, _, _ => format_object kw obj rest conversion format_spec
          end
      end
  end.

(** The pieces are rendered left to right; the first error wins. *)
Fixpoint render (kw : kwargs) (ms : list markup) : error + string :=
  match ms with
  | [] => inr ""
  | Literal c :: r =>
      match render kw r with
      | inl e => inl e
      | inr t => inr (String c t)
      end
  | Field nm cv sp :: r =>
      match render_field kw nm cv sp with
      | inl e => inl e
      | inr s =>
          match render kw r with
          | inl e => inl e
          | inr t => inr (s +:+ t)
          end
      end
  end.

(** [template.format(k1=v1, ...)] for the keyword arguments [kw]. *)
Definition format (template : string) (kw : kwargs) : error + string :=
  let '(ms, err) := scan InText template in
  match render kw ms with
  | inl e => inl e
  | inr s =>
      match err with
      | Some e => inl e
      | None => inr s
      end
  end.

(** The same call on a document value: only a [str] has the method. *)
Definition value_format (v : value) (kw : kwargs) : M string :=
  match v with
  | VStr template =>
      match format template kw with
      | inl e => raise (Error e)
      | inr s => ret s
      end
  | _ => raise (Error AttributeError)
  end.

(** ** [draft_email] (POST /draft) *)

Record DraftResponse := { draft_id : string; body : string }.

(** The style [draft_email] falls back to without a settings document. *)
Definition draft_default_style : SettingsDoc :=
  {| tone := None;
     voice := None;
     intro_template := Some (VStr default_intro_template);
     signature_template := Some (VStr default_signature_template);
     your_name := Some (VStr "Your Name");
     your_title := Some (VStr "Licensed Psychologist");
     your_website := Some (VStr "yourwebsite.com") |}.

Definition placeholder_pitch : string := "See below for my quick take: ...".

(** [x or y]. *)
Definition or_else (x y : value) : value := if truthy x then x else y.

(** [pitch_docs[0].get("content") if pitch_docs else None], then the
    placeholder when that is falsy. *)
Definition pitch_content_of (pitch_docs : list PitchDoc) : value :=
  let pitch_content :=
    match pitch_docs with
    | p :: _ => get (content p)
    | [] => VNone
    end in
  if negb (truthy pitch_content) then VStr placeholder_pitch else pitch_content.

Definition intro_kwargs (style : SettingsDoc) (name : value) : kwargs :=
  [("name", name);
   ("your_name", get_default (your_name style) (VStr "Your Name"));
   ("your_title", get_default (your_title style) (VStr "Licensed Psychologist"))].

Definition signature_kwargs (style : SettingsDoc) : kwargs :=
  [("your_name", get_default (your_name style) (VStr "Your Name"));
   ("your_title", get_default (your_title style) (VStr "Licensed Psychologist"));
   ("your_website", get_default (your_website style) (VStr "yourwebsite.com"))].

Definition draft_email (now : datetime) (req : GeneratePitchRequest) : M DraftResponse :=
  do settings_docs <- get_documents settings_c (fun _ => true) 1 ;;
  let style := first_or settings_docs draft_default_style in
  do docs <- get_documents query_c (fun _ => true) 200 ;;
  match find_query docs (query_id req) with
  | None => raise (HTTPException 404 (Text "Query not found"))
  | Some target =>
      do pitch_docs <- get_documents pitch_c (pitch_query_is (query_id req)) 1 ;;
      let pitch_content := pitch_content_of pitch_docs in
      let name := or_else (get (sender_name target)) (VStr "there") in
      do intro <- value_format (get_default (intro_template style) (VStr ""))
                    (intro_kwargs style name) ;;
      do signature <- value_format (get_default (signature_template style) (VStr ""))
                        (signature_kwargs style) ;;
      let body_ := intro +:+ LF +:+ LF +:+ str pitch_content +:+ signature in
      let draft_doc _id :=
        {| d_id := _id;
           d_query_id := VStr (query_id req);
           to_email := get (sender_email target);
           d_subject := get (q_subject target);
           d_body := VStr body_;
           approved := false;
           d_created_at := now;
           updated_at := None |} in
      try_except
        (do draft_id_ <- create_document emaildraft_c draft_doc ;;
         ret {| draft_id := draft_id_; body := body_ |})
        (fun e => raise (HTTPException 500 (StrOf e)))
  end.

End Format.

(** ** [list_queries] (GET /queries) *)

(** A query as /queries returns it: the identifier and the timestamps
    turned into strings. *)
Record QueryItem := {
  i_id : value;
  i_subject : option value;
  i_sender_email : option value;
  i_sender_name : option value;
  i_received_at : option string;
  i_deadline : option string;
  i_body_text : option value;
  i_source_message_id : option value;
  i_status : option value;
  i_tags : list string;
  i_updated_at : option string
}.

Record ListResponse := { items : list QueryItem }.

(** [{"status": status} if status else {}] as a predicate on queries: no
    filter for [None] and for the empty string. *)
Definition status_filter (status_ : option string) (q : QueryDoc) : bool :=
  match status_ with
  | Some s => if String.eqb s "" then true else bool_decide (status q = Some (VStr s))
  | None => true
  end.

Section ListQueries.

(** [datetime.isoformat], left open. *)
Variable isoformat : datetime -> string.

(** The loop body of [list_queries]: [_id] becomes [str(_id)], every
    timestamp that is there becomes its ISO text. *)
Definition to_item (d : QueryDoc) : QueryItem :=
  {| i_id := VStr (str (q_id d));
     i_subject := q_subject d;
     i_sender_email := sender_email d;
     i_sender_name := sender_name d;
     i_received_at := option_map isoformat (received_at d);
     i_deadline := option_map isoformat (deadline d);
     i_body_text := body_text d;
     i_source_message_id := source_message_id d;
     i_status := status d;
     i_tags := tags d;
     i_updated_at := option_map isoformat (q_updated_at d) |}.

Definition list_queries (status_ : option string) : M ListResponse :=
  try_except
    (do docs <- get_documents query_c (status_filter status_) 200 ;;
     ret {| items := map to_item docs |})
    (fun e => raise (HTTPException 500 (StrOf e))).

End ListQueries.

(** ** [test_database] (GET /test) *)

(** The database handle as [test_database] sees it: its [name] attribute,
    when it has one, and what [list_collection_names()] gives, a list of
    names or the message of the exception it raises. *)
Record DbHandle := {
  db_name : option string;
  list_collection_names : string + list string
}.

Record TestResponse := {
  backend : string;
  database : string;
  database_url : option string;
  database_name : option string;
  connection_status : string;
  collections : list string
}.

Definition set_database (v : string) (r : TestResponse) : TestResponse :=
  {| backend := backend r; database := v; database_url := database_url r;
     database_name := database_name r; connection_status := connection_status r;
     collections := collections r |}.

Definition set_database_url (v : option string) (r : TestResponse) : TestResponse :=
  {| backend := backend r; database := database r; database_url := v;
     database_name := database_name r; connection_status := connection_status r;
     collections := collections r |}.

Definition set_database_name (v : option string) (r : TestResponse) : TestResponse :=
  {| backend := backend r; database := database r; database_url := database_url r;
     database_name := v; connection_status := connection_status r;
     collections := collections r |}.

Definition set_connection_status (v : string) (r : TestResponse) : TestResponse :=
  {| backend := backend r; database := database r; database_url := database_url r;
     database_name := database_name r; connection_status := v;
     collections := collections r |}.

Definition set_collections (v : list string) (r : TestResponse) : TestResponse :=
  {| backend := backend r; database := database r; database_url := database_url r;
     database_name := database_name r; connection_status := connection_status r;
     collections := v |}.

(** Truthiness of [os.getenv(k)]: set and not empty. *)
Definition env_set (v : option string) : bool :=
  match v with
  | Some s => negb (String.eqb s "")
  | None => false
  end.

Definition set_flag (v : option string) : string :=
  if env_set v then "✅ Set" else "❌ Not Set".

(** The body of [test_database].  Nothing in the outer [try] raises for
    a handle of this shape, so its [except] branch does not appear; the
    cut [str(e)[:50]] is taken on bytes, which is Python's cut for ASCII
    messages. *)
Definition test_database (db : option DbHandle) (getenv : string -> option string)
    : TestResponse :=
  let response :=
    {| backend := "✅ Running";
       database := "❌ Not Available";
       database_url := None;
       database_name := None;
       connection_status := "Not Connected";
       collections := [] |} in
  let response :=
    match db with
    | Some h =>
        let response := set_database "✅ Available" response in
        let response := set_database_url (Some "✅ Configured") response in
        let response :=
          set_database_name
            (Some (match db_name h with Some n => n | None => "✅ Connected" end))
            response in
        let response := set_connection_status "Connected" response in
        match list_collection_names h with
        | inr names =>
            let response := set_collections (take 10 names) response in
            set_database "✅ Connected & Working" response
        | inl msg =>
            set_database ("⚠️  Connected but Error: " +:+ String.substring 0 50 msg)
              response
        end
    | None => set_database "⚠️  Available but not initialized" response
    end in
  let response := set_database_url (Some (set_flag (getenv "DATABASE_URL"))) response in
  set_database_name (Some (set_flag (getenv "DATABASE_NAME"))) response.

(** ** Notions the statements use *)

(** The draft a request's [draft_id] selects, as both /approve and /send
    look it up. *)
Definition find_draft (st : Store) (o : oid) : option DraftDoc :=
  List.find (draft_id_is o) (emaildraft st).

(** A store in which every query carries a store-assigned ObjectId. *)
Definition query_ids_assigned (st : Store) : Prop :=
  Forall (fun q => exists o, q_id q = VOid o) (query st).

(** The record /send writes for a draft. *)
Definition sent_record_of (d : DraftDoc) (_id : value) (now : datetime) : SentDoc :=
  {| s_id := _id; s_draft_id := str (d_id d); s_to := to_email d;
     s_subject := d_subject d; s_body := d_body d; sent_at := now |}.

(** A handler-raised [HTTPException] re-raised by the enclosing
    [except Exception] as a 500. *)
Definition wrapped_500 (code : Z) (msg : string) : exn :=
  HTTPException 500 (StrOf (HTTPException code (Text msg))).

Definition empty_store : Store :=
  {| settings := []; query := []; pitch := []; emaildraft := []; sent := [];
     next_oid := 0%N |}.

(** A stored draft for the examples, under ObjectId 7. *)
Definition example_draft (a : bool) : DraftDoc :=
  {| d_id := VOid 7%N; d_query_id := VStr "000000000000000000000003";
     to_email := VStr "jane@x.com"; d_subject := VStr "Need psych expert";
     d_body := VStr "Hi Jane"; approved := a; d_created_at := 10;
     updated_at := None |}.

Definition example_query : QueryDoc :=
  {| q_id := VOid 3%N; q_subject := Some (VStr "Need psych expert");
     sender_email := Some (VStr "jane@x.com"); sender_name := Some (VStr "Jane");
     received_at := Some 5; deadline := None; body_text := Some (VStr "Burnout?");
     source_message_id := None; status := Some (VStr "new"); tags := [];
     q_updated_at := None |}.

Definition example_store (a : bool) : Store :=
  {| settings := []; query := [example_query]; pitch := [];
     emaildraft := [example_draft a]; sent := []; next_oid := 8%N |}.

Definition example_draft_id : string := "000000000000000000000007".

(** The settings /pitch resolves: the first stored document, or the
    built-in style. *)
Definition resolved_pitch_style (st : Store) : SettingsDoc :=
  first_or (take 1 (settings st)) pitch_default_style.

(** The settings /draft resolves. *)
Definition resolved_draft_style (st : Store) : SettingsDoc :=
  first_or (take 1 (settings st)) draft_default_style.

(** The query /pitch and /draft find for an id: the scan of the first 200
    stored queries. *)
Definition reachable_query (st : Store) (qid : string) : option QueryDoc :=
  find_query (take 200 (query st)) qid.



(** The queries of a database handle; none when there is no database. *)
Definition queries_of (db : DB) : list QueryDoc :=
  match db with
  | Some st => query st
  | None => []
  end.

(** The documents a run of inserts adds: each item under the next
    ObjectId. *)
Fixpoint assigned (items : list (value -> QueryDoc)) (n : oid) : list QueryDoc :=
  match items with
  | [] => []
  | item :: rest => item (VOid n) :: assigned rest (N.succ n)
  end.

(** The identifiers those inserts return. *)
Fixpoint assigned_ids (items : list (value -> QueryDoc)) (n : oid) : list string :=
  match items with
  | [] => []
  | _ :: rest => hex24 n :: assigned_ids rest (N.succ n)
  end.

(** A store holding the 201 queries that /parse creates from nothing. *)
Definition store_201 : Store :=
  match snd (parse_newsletters 0 {| limit := 201 |} (Some empty_store)) with
  | Some st => st
  | None => empty_store
  end.

(** The pitch text /draft puts in the body for a query id: the content of
    the first matching pitch, or the placeholder sentence. *)
Definition pitch_text_for (st : Store) (qid : string) : string :=
  str (pitch_content_of (take 1 (List.filter (pitch_query_is qid) (pitch st)))).


(** A template references [k] when one of its replacement fields names the
    argument [k]. *)
Definition template_references (template : string) (k : string) : Prop :=
  exists field_name cv sp,
    In (Field field_name cv sp) (fst (scan InText template)) /\
    fst (field_name_split field_name) = k.


(** A stand-in for Python's formatting of fields that go beyond a bare
    name, to run the handlers on templates that have none. *)
Definition no_format_object (kw : kwargs) (obj : value) (rest : string)
    (cv : option ascii) (sp : string) : error + string := inl ValueError.

Definition jane_greeting : string :=
  "Hi Jane," +:+ LF +:+ LF +:+ "Thanks for reaching out".

Definition jane_intro : string :=
  jane_greeting +:+ ". I'm Your Name, a Licensed Psychologist.".

Definition rendered_default_signature : string :=
  LF +:+ LF +:+ "Best," +:+ LF +:+ "Your Name" +:+ LF +:+ "Licensed Psychologist"
  +:+ LF +:+ "yourwebsite.com".

(** Settings whose intro template names an argument nobody passes. *)
Definition first_name_settings : SettingsDoc :=
  {| tone := Some (VStr "friendly"); voice := None;
     intro_template := Some (VStr "Hi {first_name},");
     signature_template := Some (VStr default_signature_template);
     your_name := None; your_title := None; your_website := None |}.

Definition first_name_store : Store :=
  {| settings := [first_name_settings]; query := [example_query]; pitch := [];
     emaildraft := []; sent := []; next_oid := 8%N |}.

(** A query keyed by a string, the draft that refers to it, and a store
    holding both. *)
Definition string_keyed_query : QueryDoc :=
  {| q_id := VStr "q-1"; q_subject := Some (VStr "Sleep study");
     sender_email := Some (VStr "sam@x.com"); sender_name := None;
     received_at := Some 5; deadline := Some 9000;
     body_text := Some (VStr "Any comment on sleep debt?");
     source_message_id := Some (VStr "msg-1"); status := Some (VStr "new");
     tags := ["sleep"]; q_updated_at := None |}.

Definition string_keyed_draft : DraftDoc :=
  {| d_id := VOid 7%N; d_query_id := VStr "q-1";
     to_email := VStr "sam@x.com"; d_subject := VStr "Sleep study";
     d_body := VStr "Hi there"; approved := true; d_created_at := 10;
     updated_at := None |}.

Definition string_keyed_store : Store :=
  {| settings := []; query := [example_query; string_keyed_query]; pitch := [];
     emaildraft := [string_keyed_draft]; sent := []; next_oid := 8%N |}.

(** A template without braces. *)
Fixpoint no_braces (s : string) : bool :=
  match s with
  | EmptyString => true
  | String c r => negb (Ascii.eqb c "{") && negb (Ascii.eqb c "}") && no_braces r
  end.

(** A settings document that has none of the keys /draft reads. *)
Definition bare_settings : SettingsDoc :=
  {| tone := Some (VStr "formal"); voice := None; intro_template := None;
     signature_template := None; your_name := None; your_title := None;
     your_website := None |}.

Definition bare_settings_store : Store :=
  {| settings := [bare_settings]; query := [example_query]; pitch := [];
     emaildraft := []; sent := []; next_oid := 8%N |}.

(** A settings document as the schema's defaults store it: the identity
    fields present and null. *)
Definition null_identity_settings : SettingsDoc :=
  {| tone := Some (VStr "friendly");
     voice := Some (VStr "First-person expert but approachable");
     intro_template := Some (VStr default_intro_template);
     signature_template := Some (VStr default_signature_template);
     your_name := Some VNone; your_title := Some VNone; your_website := Some VNone |}.

Definition null_identity_store : Store :=
  {| settings := [null_identity_settings]; query := [example_query]; pitch := [];
     emaildraft := []; sent := []; next_oid := 8%N |}.

Definition none_signature : string :=
  LF +:+ LF +:+ "Best," +:+ LF +:+ "None" +:+ LF +:+ "None" +:+ LF +:+ "None".

(** Settings whose intro template names [your_website], which only the
    signature is given. *)
Definition website_intro_settings : SettingsDoc :=
  {| tone := None; voice := None;
     intro_template := Some (VStr "Hi {name}, see {your_website}");
     signature_template := Some (VStr default_signature_template);
     your_name := None; your_title := None;
     your_website := Some (VStr "example.org") |}.

Definition website_intro_store : Store :=
  {| settings := [website_intro_settings]; query := [example_query]; pitch := [];
     emaildraft := []; sent := []; next_oid := 8%N |}.

(** Settings whose templates have no placeholder. *)
Definition plain_settings : SettingsDoc :=
  {| tone := None; voice := None;
     intro_template := Some (VStr "Hello,");
     signature_template := Some (VStr "Regards");
     your_name := None; your_title := None; your_website := None |}.

Definition plain_settings_store : Store :=
  {| settings := [plain_settings]; query := [example_query]; pitch := [];
     emaildraft := []; sent := []; next_oid := 8%N |}.

Definition example_request : GeneratePitchRequest :=
  {| query_id := "000000000000000000000003" |}.

(** An identifier the store assigned before its counter reached [n]. *)
Definition id_below (n : oid) (v : value) : Prop :=
  exists o, v = VOid o /\ (o < n)%N.

(** Every stored query, pitch, draft and sent record carries an ObjectId
    below the store's counter. *)
Definition ids_below (st : Store) : Prop :=
  Forall (fun q => id_below (next_oid st) (q_id q)) (query st) /\
  Forall (fun p => id_below (next_oid st) (p_id p)) (pitch st) /\
  Forall (fun d => id_below (next_oid st) (d_id d)) (emaildraft st) /\
  Forall (fun r => id_below (next_oid st) (s_id r)) (sent st).

Definition db_ids_below (db : DB) : Prop :=
  match db with
  | Some st => ids_below st
  | None => True
  end.

(** A computation that keeps [db_ids_below], whatever it answers. *)
Definition keeps_ids {A} (m : M A) : Prop :=
  forall db, db_ids_below db -> db_ids_below (snd (m db)).

(** A stand-in for [isoformat] in the examples: the timestamp in digits. *)
Definition millis_text (t : datetime) : string := pretty t.

(** ASCII whitespace, which [bytes.fromhex] skips. *)
Definition is_space (c : ascii) : bool :=
  let n := N_of_ascii c in
  ((n =? 32) || ((9 <=? n) && (n <=? 13)))%N.

(** Whether a string holds a character that is neither a hexadecimal
    digit nor ASCII whitespace. *)
Fixpoint has_foreign_char (s : string) : bool :=
  match s with
  | EmptyString => false
  | String c r =>
      (match hex_value c with Some _ => false | None => negb (is_space c) end)
      || has_foreign_char r
  end.

(** A string bson takes for no ObjectId: it is not 24 characters long, or
    it holds a character that is neither a hexadecimal digit nor
    whitespace. *)
Definition never_an_object_id (s : string) : bool :=
  negb (String.length s =? 24)%nat || has_foreign_char s.







(** ** Lists: updating the first match *)

Lemma update_first_none {A} (flt : A -> bool) (upd : A -> A) (l : list A) :
  List.find flt l = None -> update_first flt upd l = (None, l).
Proof.
  induction l as [|x l IH]; simpl; [reflexivity|].
  destruct (flt x); [discriminate|].
  intros H. rewrite (IH H). reflexivity.
Qed.

Lemma update_first_some {A} (flt : A -> bool) (upd : A -> A) (l : list A) (d : A) :
  List.find flt l = Some d ->
  exists pre post,
    l = pre ++ d :: post /\
    Forall (fun x => flt x = false) pre /\
    flt d = true /\
    update_first flt upd l = (Some d, pre ++ upd d :: post).
Proof.
  induction l as [|x l IH]; simpl; [discriminate|].
  destruct (flt x) eqn:Hx.
  - intros [= <-]. exists [], l. repeat split; auto.
  - intros H. destruct (IH H) as (pre & post & -> & Hpre & Hd & Hupd).
    exists (x :: pre), post. rewrite Hupd. repeat split; auto.
Qed.

Lemma find_first_match {A} (flt : A -> bool) (pre post : list A) (d : A) :
  Forall (fun x => flt x = false) pre -> flt d = true ->
  List.find flt (pre ++ d :: post) = Some d.
Proof.
  induction 1 as [|x pre Hx _ IH]; simpl; intros Hd.
  - rewrite Hd. reflexivity.
  - rewrite Hx. auto.
Qed.

Lemma set_approval_same (a : bool) (now : datetime) (d : DraftDoc) :
  set_approval a now d = d <-> approved d = a /\ updated_at d = Some now.
Proof.
  destruct d; unfold set_approval; simpl. split.
  - intros [= -> ->]. auto.
  - intros [-> ->]. reflexivity.
Qed.

(** What /approve does to the store when the draft is found. *)
Lemma approve_draft_found now req st o d :
  parse_oid (a_draft_id req) = Some o ->
  find_draft st o = Some d ->
  exists pre post,
    emaildraft st = pre ++ d :: post /\
    Forall (fun x => draft_id_is o x = false) pre /\
    approve_draft now req (Some st) =
      (Return {| updated := negb (bool_decide (set_approval (a_approved req) now d = d)) |},
       Some (set_docs emaildraft_c
               (pre ++ set_approval (a_approved req) now d :: post) st)).
Proof.
  intros Ho Hd. unfold find_draft in Hd.
  destruct (update_first_some _ (set_approval (a_approved req) now) _ _ Hd)
    as (pre & post & Hl & Hpre & Hm & Hupd).
  exists pre, post. split; [exact Hl|]. split; [exact Hpre|].
  unfold approve_draft, try_except, bind, db_getitem, ObjectId, update_one, ret, raise.
  rewrite Ho. simpl. rewrite Hupd. simpl.
  destruct (decide (set_approval (a_approved req) now d = d)) as [E|E].
  - rewrite bool_decide_eq_true_2 by exact E. reflexivity.
  - rewrite bool_decide_eq_false_2 by exact E. reflexivity.
Qed.

Lemma find_draft_after_approve a now st o d pre post :
  emaildraft st = pre ++ d :: post ->
  Forall (fun x => draft_id_is o x = false) pre ->
  draft_id_is o d = true ->
  find_draft (set_docs emaildraft_c (pre ++ set_approval a now d :: post) st) o
  = Some (set_approval a now d).
Proof.
  intros _ Hpre Hd. unfold find_draft. simpl.
  apply find_first_match; [exact Hpre|]. exact Hd.
Qed.

Lemma find_draft_matches st o d : find_draft st o = Some d -> draft_id_is o d = true.
Proof.
  unfold find_draft. intros H. apply List.find_some in H. tauto.
Qed.

(** ** /approve *)

(** C10: a call to [approve_draft] that matches a stored draft replaces
    that draft, in place, by one whose [updated_at] is the timestamp of the
    call and whose [approved] is the requested value, whatever [approved]
    was before; every other field of the draft, every other draft and
    every other collection is left as it was. *)
Theorem approve_draft_frame now req st o d :
  parse_oid (a_draft_id req) = Some o ->
  find_draft st o = Some d ->
  exists pre post d' u st',
    approve_draft now req (Some st) = (Return u, Some st') /\
    emaildraft st = pre ++ d :: post /\
    emaildraft st' = pre ++ d' :: post /\
    updated_at d' = Some now /\
    approved d' = a_approved req /\
    d_id d' = d_id d /\ d_query_id d' = d_query_id d /\
    to_email d' = to_email d /\ d_subject d' = d_subject d /\
    d_body d' = d_body d /\ d_created_at d' = d_created_at d /\
    settings st' = settings st /\ query st' = query st /\
    pitch st' = pitch st /\ sent st' = sent st.
Proof.
  intros Ho Hd.
  destruct (approve_draft_found now req st o d Ho Hd) as (pre & post & Hl & _ & Hrun).
  exists pre, post, (set_approval (a_approved req) now d).
  eexists. eexists. split; [exact Hrun|].
  split; [exact Hl|]. simpl. repeat split; reflexivity.
Qed.

Lemma approve_draft_frame_witness :
  exists pre post d' u st',
    approve_draft 99 {| a_draft_id := example_draft_id; a_approved := true |}
      (Some (example_store true)) = (Return u, Some st') /\
    emaildraft (example_store true) = pre ++ example_draft true :: post /\
    emaildraft st' = pre ++ d' :: post /\
    updated_at d' = Some 99 /\
    approved d' = true /\
    d_id d' = d_id (example_draft true) /\
    d_query_id d' = d_query_id (example_draft true) /\
    to_email d' = to_email (example_draft true) /\
    d_subject d' = d_subject (example_draft true) /\
    d_body d' = d_body (example_draft true) /\
    d_created_at d' = d_created_at (example_draft true) /\
    settings st' = settings (example_store true) /\
    query st' = query (example_store true) /\
    pitch st' = pitch (example_store true) /\
    sent st' = sent (example_store true).
Proof.
  apply (approve_draft_frame 99
           {| a_draft_id := example_draft_id; a_approved := true |}
           (example_store true) 7%N (example_draft true)).
  - vm_compute. reflexivity.
  - vm_compute. reflexivity.
Defined.

(** C2, as the claim states it, fails: approving twice with
    [approved=true] at two different times answers [updated=true] the
    second time, because the second call changes [updated_at]. *)
Lemma approve_twice_counterexample :
  fst (approve_draft 2000 {| a_draft_id := example_draft_id; a_approved := true |}
         (snd (approve_draft 1000
                 {| a_draft_id := example_draft_id; a_approved := true |}
                 (Some (example_store false)))))
  = Return {| updated := true |}
  /\ fst (approve_draft 2000 {| a_draft_id := example_draft_id; a_approved := true |}
         (snd (approve_draft 1000
                 {| a_draft_id := example_draft_id; a_approved := true |}
                 (Some (example_store false)))))
  <> Return {| updated := false |}.
Proof.
  split; [vm_compute; reflexivity|].
  vm_compute. intros H. discriminate H.
Qed.

(** C2 amended: for every stored draft, approving is repeatable and
    [updated] tells whether the stored document changed, [updated_at]
    included.  After approve(true) at [now1], approve(true) at [now2]
    succeeds, leaves [approved] true and answers [updated = true] exactly
    when [now2] differs from [now1]; approve(false) answers
    [updated = true]. *)
Theorem approve_updated_reflects_document now1 now2 did st o d :
  parse_oid did = Some o ->
  find_draft st o = Some d ->
  exists u1 st1,
    approve_draft now1 {| a_draft_id := did; a_approved := true |} (Some st)
      = (Return u1, Some st1) /\
    (exists st2 d2,
        approve_draft now2 {| a_draft_id := did; a_approved := true |} (Some st1)
          = (Return {| updated := negb (now2 =? now1) |}, Some st2) /\
        find_draft st2 o = Some d2 /\ approved d2 = true) /\
    (exists st3,
        approve_draft now2 {| a_draft_id := did; a_approved := false |} (Some st1)
          = (Return {| updated := true |}, Some st3)).
Proof.
  intros Ho Hd.
  pose proof (find_draft_matches _ _ _ Hd) as Hm.
  destruct (approve_draft_found now1 {| a_draft_id := did; a_approved := true |}
              st o d Ho Hd) as (pre & post & Hl & Hpre & Hrun1).
  simpl in Hrun1.
  set (d1 := set_approval true now1 d) in *.
  set (st1 := set_docs emaildraft_c (pre ++ d1 :: post) st) in *.
  assert (Hd1 : find_draft st1 o = Some d1)
    by (apply (find_draft_after_approve true now1 st o d pre post Hl Hpre Hm)).
  eexists. exists st1. split; [exact Hrun1|]. split.
  - destruct (approve_draft_found now2 {| a_draft_id := did; a_approved := true |}
                st1 o d1 Ho Hd1) as (pre' & post' & Hl' & Hpre' & Hrun2).
    simpl in Hrun2.
    eexists. exists (set_approval true now2 d1). split; [|split].
    + rewrite Hrun2. f_equal. f_equal. f_equal. f_equal.
      destruct (Z.eqb_spec now2 now1) as [->|Hne].
      * apply bool_decide_eq_true_2. reflexivity.
      * apply bool_decide_eq_false_2. intros E.
        apply set_approval_same in E. destruct E as [_ E].
        simpl in E. congruence.
    + apply (find_draft_after_approve true now2 st1 o d1 pre' post' Hl' Hpre').
      exact (find_draft_matches _ _ _ Hd1).
    + reflexivity.
  - destruct (approve_draft_found now2 {| a_draft_id := did; a_approved := false |}
                st1 o d1 Ho Hd1) as (pre' & post' & Hl' & Hpre' & Hrun3).
    simpl in Hrun3.
    eexists. rewrite Hrun3. f_equal. f_equal. f_equal.
    rewrite bool_decide_eq_false_2; [reflexivity|].
    intros E. apply set_approval_same in E. destruct E as [E _].
    simpl in E. discriminate E.
Qed.

Lemma approve_updated_reflects_document_witness :
  exists u1 st1,
    approve_draft 1000 {| a_draft_id := example_draft_id; a_approved := true |}
      (Some (example_store false)) = (Return u1, Some st1) /\
    (exists st2 d2,
        approve_draft 2000 {| a_draft_id := example_draft_id; a_approved := true |}
          (Some st1)
          = (Return {| updated := negb (2000 =? 1000) |}, Some st2) /\
        find_draft st2 7%N = Some d2 /\ approved d2 = true) /\
    (exists st3,
        approve_draft 2000 {| a_draft_id := example_draft_id; a_approved := false |}
          (Some st1)
          = (Return {| updated := true |}, Some st3)).
Proof.
  apply (approve_updated_reflects_document 1000 2000 example_draft_id
           (example_store false) 7%N (example_draft false)).
  - vm_compute. reflexivity.
  - vm_compute. reflexivity.
Defined.

(** ** /send and the error paths *)

Lemma find_query_id_str (st : Store) (qid : string) :
  query_ids_assigned st ->
  List.find (query_id_is (VStr qid)) (query st) = None.
Proof.
  unfold query_ids_assigned.
  induction 1 as [|q l [o Hq] _ IH]; simpl; [reflexivity|].
  unfold query_id_is at 1, value_eqb. rewrite Hq.
  rewrite bool_decide_eq_false_2 by discriminate. exact IH.
Qed.

(** C4: with a [draft_id] that selects no stored draft, /approve and
    /send both raise their 404 inside the [try] whose [except Exception]
    re-raises it, so the caller gets a 500 whose detail is the text of
    the 404; the store is unchanged. *)
Theorem missing_draft_is_500 now now' did st o :
  parse_oid did = Some o ->
  find_draft st o = None ->
  approve_draft now {| a_draft_id := did; a_approved := true |} (Some st)
    = (Raise (wrapped_500 404 "Draft not found"), Some st) /\
  approve_draft now {| a_draft_id := did; a_approved := false |} (Some st)
    = (Raise (wrapped_500 404 "Draft not found"), Some st) /\
  send_email now now' {| s_req_draft_id := did |} (Some st)
    = (Raise (wrapped_500 404 "Draft not found"), Some st).
Proof.
  intros Ho Hd. unfold find_draft in Hd.
  unfold approve_draft, send_email, try_except, bind, db_getitem, ObjectId,
    update_one, find_one, ret, raise.
  cbn [a_draft_id a_approved s_req_draft_id].
  rewrite Ho. simpl.
  rewrite !(update_first_none _ _ _ Hd), Hd. simpl. auto.
Qed.

Lemma missing_draft_is_500_witness :
  http_status (fst (approve_draft 1
                      {| a_draft_id := "0000000000000000000000ff"; a_approved := true |}
                      (Some (example_store false)))) = 500 /\
  http_status (fst (send_email 1 2
                      {| s_req_draft_id := "0000000000000000000000ff" |}
                      (Some (example_store false)))) = 500.
Proof.
  destruct (missing_draft_is_500 1 2 "0000000000000000000000ff"
              (example_store false) 255%N) as (Ha & _ & Hs).
  - vm_compute. reflexivity.
  - vm_compute. reflexivity.
  - rewrite Ha, Hs. split; reflexivity.
Defined.

(** C3: /send on a stored draft with [approved=false] raises its 400
    inside the [try] whose [except Exception] re-raises it as a 500; the
    store, its [sent] collection included, is unchanged. *)
Theorem send_unapproved_is_500 now now' did st o d :
  parse_oid did = Some o ->
  find_draft st o = Some d ->
  approved d = false ->
  send_email now now' {| s_req_draft_id := did |} (Some st)
    = (Raise (wrapped_500 400 "Draft not approved"), Some st).
Proof.
  intros Ho Hd Ha. unfold find_draft in Hd.
  unfold send_email, try_except, bind, db_getitem, ObjectId, find_one, ret, raise.
  cbn [s_req_draft_id].
  rewrite Ho. simpl. rewrite Hd, Ha. reflexivity.
Qed.

Lemma send_unapproved_is_500_witness :
  send_email 1 2 {| s_req_draft_id := example_draft_id |} (Some (example_store false))
    = (Raise (wrapped_500 400 "Draft not approved"), Some (example_store false))
  /\ http_status (Raise (A := SendResponse) (wrapped_500 400 "Draft not approved")) = 500.
Proof.
  split; [|reflexivity].
  apply (send_unapproved_is_500 1 2 example_draft_id (example_store false)
           7%N (example_draft false)).
  - vm_compute. reflexivity.
  - vm_compute. reflexivity.
  - reflexivity.
Defined.

(** C1: /send on an approved draft appends exactly one SentRecord that
    copies the draft's [to_email], [subject] and [body] and carries the
    send timestamp, but the filter of the status update is the draft's
    [query_id], a string, while stored queries are keyed by ObjectIds: no
    query matches and the query collection is left as it was. *)
Theorem send_approved_leaves_query now now' did st o d qid :
  parse_oid did = Some o ->
  find_draft st o = Some d ->
  approved d = true ->
  d_query_id d = VStr qid ->
  query_ids_assigned st ->
  exists st',
    send_email now now' {| s_req_draft_id := did |} (Some st)
      = (Return {| sent_id := hex24 (next_oid st) |}, Some st') /\
    sent st' = sent st ++ [sent_record_of d (VOid (next_oid st)) now] /\
    query st' = query st /\
    emaildraft st' = emaildraft st.
Proof.
  intros Ho Hd Ha Hq Hids. unfold find_draft in Hd.
  pose proof (find_query_id_str st qid Hids) as Hnone.
  eexists.
  unfold send_email, try_except, bind, db_getitem, ObjectId, find_one,
    create_document, update_one, ret, raise.
  cbn [s_req_draft_id].
  rewrite Ho. simpl. rewrite Hd, Ha. simpl. rewrite Hq.
  rewrite (update_first_none _ _ _ Hnone). simpl.
  repeat split; reflexivity.
Qed.

Lemma send_approved_leaves_query_witness :
  find_query (query (example_store true)) "000000000000000000000003"
    = Some example_query /\
  exists st',
    send_email 50 51 {| s_req_draft_id := example_draft_id |} (Some (example_store true))
      = (Return {| sent_id := hex24 8%N |}, Some st') /\
    sent st' = [sent_record_of (example_draft true) (VOid 8%N) 50] /\
    query st' = [example_query] /\
    status example_query = Some (VStr "new").
Proof.
  split; [vm_compute; reflexivity|].
  destruct (send_approved_leaves_query 50 51 example_draft_id (example_store true)
              7%N (example_draft true) "000000000000000000000003")
    as (st' & Hrun & Hsent & Hquery & _).
  - vm_compute. reflexivity.
  - vm_compute. reflexivity.
  - reflexivity.
  - reflexivity.
  - repeat constructor. exists 3%N. reflexivity.
  - exists st'. repeat split; assumption.
Defined.

(** ** /parse *)

Lemma filter_all {A} (l : list A) : List.filter (fun _ => true) l = l.
Proof. induction l as [|x l IH]; simpl; congruence. Qed.

Lemma insert_items_run (items : list (value -> QueryDoc)) :
  forall (acc : list string) (st : Store),
    exists st',
      insert_items items acc (Some st)
        = (Return (acc ++ assigned_ids items (next_oid st)), Some st') /\
      query st' = query st ++ assigned items (next_oid st) /\
      settings st' = settings st /\ pitch st' = pitch st /\
      emaildraft st' = emaildraft st /\ sent st' = sent st.
Proof.
  induction items as [|item rest IH]; intros acc st.
  - exists st. simpl. unfold ret. rewrite !app_nil_r. repeat split; reflexivity.
  - destruct (IH (acc ++ [hex24 (next_oid st)])
                (set_docs query_c (query st ++ [item (VOid (next_oid st))]) (bump_oid st)))
      as (st' & Hrun & Hq & Hs & Hp & Hd & Hsent).
    exists st'. split.
    + rewrite <- app_assoc in Hrun. exact Hrun.
    + simpl in *. rewrite Hq, <- app_assoc. repeat split; assumption.
Qed.

Lemma insert_items_no_db (items : list (value -> QueryDoc)) (acc : list string) r db' :
  insert_items items acc None = (Return r, db') -> items = [].
Proof.
  destruct items as [|item rest]; [reflexivity|].
  simpl. unfold bind, try_except, create_document, raise. discriminate.
Qed.

Lemma assigned_sample_items now (l : list Z) :
  forall n,
    List.length (assigned (map (sample_item now) l) n) = List.length l /\
    Forall (fun q => status q = Some (VStr "new")) (assigned (map (sample_item now) l) n) /\
    map (fun q => str (q_id q)) (assigned (map (sample_item now) l) n)
      = assigned_ids (map (sample_item now) l) n.
Proof.
  induction l as [|i l IH]; intros n; simpl.
  - repeat split. constructor.
  - destruct (IH (N.succ n)) as (Hlen & Hst & Hids).
    rewrite Hlen, Hids. repeat split. constructor; [reflexivity|exact Hst].
Qed.

Lemma length_range (n : Z) : 0 <= n -> Z.of_nat (List.length (range n)) = n.
Proof. intros Hn. unfold range. rewrite length_seqZ. lia. Qed.

(** C7: for every [limit >= 0], a call to [parse_newsletters] that
    returns has appended exactly [limit] documents to the query
    collection, each with status "new", and answers their count and their
    identifiers; whenever a database is configured the call does return. *)
Theorem parse_creates_limit now lim db :
  0 <= lim ->
  (forall r db',
      parse_newsletters now {| limit := lim |} db = (Return r, db') ->
      exists new,
        queries_of db' = queries_of db ++ new /\
        Z.of_nat (List.length new) = lim /\
        Forall (fun q => status q = Some (VStr "new")) new /\
        inserted r = lim /\
        Z.of_nat (List.length (ids r)) = lim /\
        ids r = map (fun q => str (q_id q)) new) /\
  (forall st, db = Some st ->
      exists r db', parse_newsletters now {| limit := lim |} db = (Return r, db')).
Proof.
  intros Hlim.
  assert (Hsome : forall st,
    exists st',
      parse_newsletters now {| limit := lim |} (Some st)
        = (Return {| inserted := Z.of_nat (List.length
                       (assigned_ids (map (sample_item now) (range lim)) (next_oid st)));
                     ids := assigned_ids (map (sample_item now) (range lim)) (next_oid st) |},
           Some st') /\
      query st' = query st ++ assigned (map (sample_item now) (range lim)) (next_oid st)).
  { intros st. unfold parse_newsletters, bind, ret. cbn [limit].
    destruct (insert_items_run (map (sample_item now) (range lim)) [] st)
      as (st' & Hrun & Hq & _).
    exists st'. rewrite Hrun. simpl. auto. }
  split.
  - intros r db' Hrun. destruct db as [st|].
    + destruct (Hsome st) as (st' & Hrun' & Hq). rewrite Hrun' in Hrun.
      injection Hrun as <- <-.
      destruct (assigned_sample_items now (range lim) (next_oid st)) as (Hlen & Hst & Hids).
      exists (assigned (map (sample_item now) (range lim)) (next_oid st)).
      cbn [queries_of inserted ids]. rewrite <- Hids, length_map, Hlen.
      rewrite (length_range lim Hlim). repeat split; auto.
    + unfold parse_newsletters, bind, ret in Hrun. cbn [limit] in Hrun.
      destruct (insert_items (map (sample_item now) (range lim)) [] None)
        as [[ids0|e] db0] eqn:Hins; [|discriminate].
      pose proof (insert_items_no_db _ _ _ _ Hins) as Hnil.
      rewrite Hnil in Hins. simpl in Hins. unfold ret in Hins.
      injection Hins as <- <-. injection Hrun as <- <-.
      assert (Hz : lim = 0).
      { rewrite <- (length_range lim Hlim).
        apply (f_equal (@List.length _)) in Hnil. rewrite length_map in Hnil.
        rewrite Hnil. reflexivity. }
      exists []. simpl. repeat split; auto.
  - intros st ->. destruct (Hsome st) as (st' & Hrun & _). eauto.
Qed.

Lemma parse_creates_limit_witness :
  exists r db' new,
    parse_newsletters 1234567 {| limit := 3 |} (Some empty_store) = (Return r, db') /\
    queries_of db' = new /\
    Z.of_nat (List.length new) = 3 /\
    Forall (fun q => status q = Some (VStr "new")) new /\
    inserted r = 3 /\
    ids r = map (fun q => str (q_id q)) new.
Proof.
  destruct (parse_creates_limit 1234567 3 (Some empty_store)) as [Hret Htot].
  - lia.
  - destruct (Htot empty_store eq_refl) as (r & db' & Hrun).
    destruct (Hret r db' Hrun) as (new & Hq & Hlen & Hst & Hins & _ & Hids).
    exists r, db', new. repeat split; assumption.
Defined.

(** ** /pitch *)

Lemma find_query_none (l : list QueryDoc) (qid : string) :
  (forall q, In q l -> str (q_id q) <> qid) -> find_query l qid = None.
Proof.
  unfold find_query. induction l as [|q l IH]; intros H; simpl; [reflexivity|].
  destruct (String.eqb_spec (str (q_id q)) qid) as [E|_].
  - exfalso. apply (H q); [left; reflexivity|exact E].
  - apply IH. intros q' Hin. apply H. right. exact Hin.
Qed.

Lemma not_among_by_scan (l : list QueryDoc) (qid : string) :
  forallb (fun q => negb (String.eqb (str (q_id q)) qid)) l = true ->
  forall q, In q l -> str (q_id q) <> qid.
Proof.
  intros Hb q Hin E. rewrite forallb_forall in Hb. specialize (Hb q Hin).
  rewrite E, String.eqb_refl in Hb. discriminate Hb.
Qed.

Lemma get_documents_query_200 (st : Store) :
  get_documents query_c (fun _ => true) 200 (Some st)
  = (Return (take 200 (query st)), Some st).
Proof. unfold get_documents. simpl. rewrite filter_all. reflexivity. Qed.

Lemma get_documents_settings_1 (st : Store) :
  get_documents settings_c (fun _ => true) 1 (Some st)
  = (Return (take 1 (settings st)), Some st).
Proof. unfold get_documents. simpl. rewrite filter_all. reflexivity. Qed.

(** C9: the lookup of /pitch reads at most 200 query documents, the first
    200 in the store's order, and scans them for the id; a query id that
    none of those carries gets the 404 "Query not found", wherever else
    in the collection the query is, and nothing is written. *)
Theorem pitch_lookup_capped now req st :
  (forall q, In q (take 200 (query st)) -> str (q_id q) <> query_id req) ->
  (exists docs,
      get_documents query_c (fun _ => true) 200 (Some st) = (Return docs, Some st) /\
      docs = take 200 (query st) /\
      (List.length docs <= 200)%nat) /\
  generate_pitch now req (Some st)
    = (Raise (HTTPException 404 (Text "Query not found")), Some st) /\
  http_status (fst (generate_pitch now req (Some st))) = 404.
Proof.
  intros Hnot.
  assert (Hrun : generate_pitch now req (Some st)
                 = (Raise (HTTPException 404 (Text "Query not found")), Some st)).
  { unfold generate_pitch, bind.
    rewrite get_documents_settings_1, get_documents_query_200.
    rewrite (find_query_none _ _ Hnot). reflexivity. }
  split; [|split].
  - exists (take 200 (query st)). split; [apply get_documents_query_200|].
    split; [reflexivity|]. rewrite length_take. lia.
  - exact Hrun.
  - rewrite Hrun. reflexivity.
Qed.

Lemma pitch_lookup_capped_witness :
  List.length (query store_201) = 201%nat /\
  nth_error (query store_201) 200 = Some (sample_item 0 200 (VOid 200%N)) /\
  str (q_id (sample_item 0 200 (VOid 200%N))) = "0000000000000000000000c8" /\
  generate_pitch 5 {| query_id := "0000000000000000000000c8" |} (Some store_201)
    = (Raise (HTTPException 404 (Text "Query not found")), Some store_201).
Proof.
  split; [vm_compute; reflexivity|].
  split; [vm_compute; reflexivity|].
  split; [vm_compute; reflexivity|].
  refine (proj1 (proj2 (pitch_lookup_capped 5
            {| query_id := "0000000000000000000000c8" |} store_201 _))).
  apply not_among_by_scan. vm_compute. reflexivity.
Defined.






(** ** /draft *)

Section DraftProperties.

Variable format_object :
  kwargs -> value -> string -> option ascii -> string -> error + string.

Lemma render_field_unknown (kw : kwargs) (field_name : string)
    (cv : option ascii) (sp : string) :
  lookup_kw (fst (field_name_split field_name)) kw = None ->
  exists e, render_field format_object kw field_name cv sp = inl e.
Proof.
  unfold render_field. destruct (field_name_split field_name) as [first rest].
  simpl. intros Hk.
  destruct (get_integer first 0) as [e|[n|]]; eauto.
  rewrite Hk. eauto.
Qed.

Lemma render_stops_at_error (kw : kwargs) (ms : list markup)
    (field_name : string) (cv : option ascii) (sp : string) :
  In (Field field_name cv sp) ms ->
  (exists e, render_field format_object kw field_name cv sp = inl e) ->
  exists e, render format_object kw ms = inl e.
Proof.
  intros Hin [e He]. induction ms as [|m ms IH]; [destruct Hin|].
  destruct Hin as [->|Hin].
  - simpl. rewrite He. eauto.
  - destruct (IH Hin) as [e' He']. simpl. destruct m as [c|nm cv' sp'].
    + rewrite He'. eauto.
    + destruct (render_field format_object kw nm cv' sp'); [eauto|].
      rewrite He'. eauto.
Qed.

Lemma format_unknown (template : string) (kw : kwargs) (k : string) :
  template_references template k ->
  lookup_kw k kw = None ->
  exists e, format format_object template kw = inl e.
Proof.
  intros (nm & cv & sp & Hin & Hk) Hnone. unfold format.
  destruct (scan InText template) as [ms err]. simpl in Hin.
  destruct (render_stops_at_error kw ms nm cv sp Hin) as [e He].
  - apply render_field_unknown. rewrite Hk. exact Hnone.
  - rewrite He. eauto.
Qed.


Lemma value_format_cases (v : value) (kw : kwargs) (db : DB) :
  (exists s, value_format format_object v kw db = (Return s, db)) \/
  (exists e, value_format format_object v kw db = (Raise (Error e), db)).
Proof.
  destruct v as [|t|o]; simpl; unfold raise; eauto.
  destruct (format format_object t kw); unfold ret, raise; eauto.
Qed.

Lemma get_documents_pitch_1 (st : Store) (qid : string) :
  get_documents pitch_c (pitch_query_is qid) 1 (Some st)
  = (Return (take 1 (List.filter (pitch_query_is qid) (pitch st))), Some st).
Proof. reflexivity. Qed.

(** The run of /draft up to the two renderings, for a query the lookup
    finds. *)
Lemma draft_email_found now req st target :
  reachable_query st (query_id req) = Some target ->
  draft_email format_object now req (Some st)
  = (do intro <- value_format format_object
                   (get_default (intro_template (resolved_draft_style st)) (VStr ""))
                   (intro_kwargs (resolved_draft_style st)
                      (or_else (get (sender_name target)) (VStr "there"))) ;;
     do signature <- value_format format_object
                       (get_default (signature_template (resolved_draft_style st)) (VStr ""))
                       (signature_kwargs (resolved_draft_style st)) ;;
     let body_ := intro +:+ LF +:+ LF +:+ pitch_text_for st (query_id req) +:+ signature in
     try_except
       (do draft_id_ <- create_document emaildraft_c
                          (fun _id =>
                             {| d_id := _id;
                                d_query_id := VStr (query_id req);
                                to_email := get (sender_email target);
                                d_subject := get (q_subject target);
                                d_body := VStr body_;
                                approved := false;
                                d_created_at := now;
                                updated_at := None |}) ;;
        ret {| draft_id := draft_id_; body := body_ |})
       (fun e => raise (HTTPException 500 (StrOf e)))) (Some st).
Proof.
  intros Hq. unfold reachable_query in Hq.
  unfold draft_email at 1. unfold bind at 1.
  rewrite get_documents_settings_1. unfold bind at 1.
  rewrite get_documents_query_200, Hq. unfold bind at 1.
  rewrite get_documents_pitch_1. reflexivity.
Qed.










End DraftProperties.




(** * Further properties of the handlers *)

(** ** Identifiers *)

Lemma hex_value_digit (d : N) : (d < 16)%N -> hex_value (hex_digit d) = Some d.
Proof.
  intros H. destruct d as [|p]; [reflexivity|].
  do 4 (try destruct p as [p|p|]); try reflexivity; lia.
Qed.

Lemma length_hex_digits (k : nat) :
  forall n acc, String.length (hex_digits k n acc) = (k + String.length acc)%nat.
Proof.
  induction k as [|k IH]; intros n acc; simpl; [reflexivity|].
  rewrite IH. simpl. lia.
Qed.

Lemma parse_hex_digits (k : nat) :
  forall n acc a,
    parse_hex (hex_digits k n acc) a
    = parse_hex acc (a * 16 ^ N.of_nat k + n mod 16 ^ N.of_nat k)%N.
Proof.
  induction k as [|k IH]; intros n acc a.
  - simpl. rewrite N.mod_1_r. f_equal. lia.
  - cbn [hex_digits]. rewrite IH. cbn [parse_hex].
    rewrite hex_value_digit by (apply N.mod_lt; lia).
    f_equal. rewrite Nat2N.inj_succ, N.pow_succ_r'.
    rewrite (N.Div0.mod_mul_r n 16 (16 ^ N.of_nat k)). lia.
Qed.

Lemma parse_oid_hex24 (o : oid) : parse_oid (hex24 o) = Some (o mod 2 ^ 96)%N.
Proof.
  unfold parse_oid, hex24. rewrite length_hex_digits. cbn [String.length Nat.add Nat.eqb].
  rewrite parse_hex_digits. cbn [parse_hex]. f_equal.
Qed.

(** X1: the string of a store-assigned ObjectId is 24 characters long
    and [ObjectId] reads it back as the same identifier, so an id
    returned by one call is accepted by the next. *)
Theorem oid_str_round_trip (o : oid) :
  (o < 2 ^ 96)%N ->
  String.length (str (VOid o)) = 24%nat /\
  parse_oid (str (VOid o)) = Some o /\
  forall db, ObjectId (str (VOid o)) db = (Return o, db).
Proof.
  intros Ho. cbn [str].
  assert (Hp : parse_oid (hex24 o) = Some o)
    by (rewrite parse_oid_hex24, N.mod_small by exact Ho; reflexivity).
  split; [unfold hex24; rewrite length_hex_digits; reflexivity|].
  split; [exact Hp|].
  intros db. unfold ObjectId. rewrite Hp. reflexivity.
Qed.

Lemma oid_str_round_trip_witness :
  String.length (str (VOid 255%N)) = 24%nat /\
  parse_oid (str (VOid 255%N)) = Some 255%N /\
  forall db, ObjectId (str (VOid 255%N)) db = (Return 255%N, db).
Proof.
  apply (oid_str_round_trip 255%N). vm_compute. reflexivity.
Defined.

(** ** /approve and /send: what the caller can get *)

Lemma try_except_500 {A} (m : M A) (db : DB) :
  (exists a, fst (try_except m (fun e => raise (HTTPException 500 (StrOf e))) db)
             = Return a) \/
  (exists e, fst (try_except m (fun e => raise (HTTPException 500 (StrOf e))) db)
             = Raise (HTTPException 500 (StrOf e))).
Proof.
  unfold try_except, raise. destruct (m db) as [[a|e] db']; simpl; eauto.
Qed.

(** X2: whatever the request and the store, /approve and /send answer
    200 or 500: every exception of theirs, the 404 and the 400 they raise
    themselves included, reaches the caller as a 500 that wraps it. *)
Theorem approve_send_only_200_or_500 now now' areq sreq db :
  (http_status (fst (approve_draft now areq db)) = 200 \/
   http_status (fst (approve_draft now areq db)) = 500) /\
  (http_status (fst (send_email now now' sreq db)) = 200 \/
   http_status (fst (send_email now now' sreq db)) = 500) /\
  (forall e, fst (approve_draft now areq db) = Raise e ->
             exists e', e = HTTPException 500 (StrOf e')) /\
  (forall e, fst (send_email now now' sreq db) = Raise e ->
             exists e', e = HTTPException 500 (StrOf e')).
Proof.
  unfold approve_draft, send_email.
  repeat split.
  - match goal with |- context [try_except ?m _ db] =>
      destruct (try_except_500 m db) as [[a ->]|[e ->]] end; simpl; auto.
  - match goal with |- context [try_except ?m _ db] =>
      destruct (try_except_500 m db) as [[a ->]|[e ->]] end; simpl; auto.
  - intros e. match goal with |- context [try_except ?m _ db] =>
      destruct (try_except_500 m db) as [[a ->]|[e' ->]] end.
    + discriminate.
    + intros [= <-]. eauto.
  - intros e. match goal with |- context [try_except ?m _ db] =>
      destruct (try_except_500 m db) as [[a ->]|[e' ->]] end.
    + discriminate.
    + intros [= <-]. eauto.
Qed.

Lemma parse_hex_foreign (s : string) :
  has_foreign_char s = true -> forall acc, parse_hex s acc = None.
Proof.
  induction s as [|c r IH]; intros H acc; [discriminate H|].
  cbn [has_foreign_char] in H. cbn [parse_hex].
  destruct (hex_value c) as [d|]; [|reflexivity].
  cbn [orb] in H. apply IH. exact H.
Qed.

Lemma never_an_object_id_parse (s : string) :
  never_an_object_id s = true -> parse_oid s = None.
Proof.
  unfold never_an_object_id, parse_oid. intros H.
  destruct (String.length s =? 24)%nat; [|reflexivity].
  cbn [negb orb] in H. apply parse_hex_foreign. exact H.
Qed.

(** X3: a [draft_id] that is not 24 characters long, or that holds a
    character that is neither a hexadecimal digit nor whitespace, makes
    /approve and /send fail with a 500 that wraps [InvalidId]; the store
    is not touched. *)
Theorem malformed_draft_id_is_500 now now' did a st :
  never_an_object_id did = true ->
  approve_draft now {| a_draft_id := did; a_approved := a |} (Some st)
    = (Raise (HTTPException 500 (StrOf (Error InvalidId))), Some st) /\
  send_email now now' {| s_req_draft_id := did |} (Some st)
    = (Raise (HTTPException 500 (StrOf (Error InvalidId))), Some st).
Proof.
  intros Hbad. pose proof (never_an_object_id_parse did Hbad) as Hp.
  unfold approve_draft, send_email, try_except, bind, db_getitem, ObjectId, raise.
  cbn [a_draft_id s_req_draft_id]. rewrite Hp. split; reflexivity.
Qed.

Lemma malformed_draft_id_is_500_witness :
  (approve_draft 1 {| a_draft_id := "draft-7"; a_approved := true |}
     (Some (example_store false))
     = (Raise (HTTPException 500 (StrOf (Error InvalidId))), Some (example_store false)) /\
   send_email 1 2 {| s_req_draft_id := "draft-7" |} (Some (example_store false))
     = (Raise (HTTPException 500 (StrOf (Error InvalidId))), Some (example_store false))) /\
  never_an_object_id "00000000000000000000000z" = true.
Proof.
  split; [|reflexivity].
  apply (malformed_draft_id_is_500 1 2 "draft-7" true (example_store false)).
  reflexivity.
Defined.

(** What /send does to the store for an approved draft it finds. *)
Lemma send_email_approved now now' did st o d :
  parse_oid did = Some o ->
  find_draft st o = Some d ->
  approved d = true ->
  exists st',
    send_email now now' {| s_req_draft_id := did |} (Some st)
      = (Return {| sent_id := hex24 (next_oid st) |}, Some st') /\
    sent st' = sent st ++ [sent_record_of d (VOid (next_oid st)) now] /\
    emaildraft st' = emaildraft st /\
    pitch st' = pitch st /\
    settings st' = settings st /\
    next_oid st' = N.succ (next_oid st) /\
    query st' = snd (update_first (query_id_is (d_query_id d))
                       (set_status_sent now') (query st)).
Proof.
  intros Ho Hd Ha. unfold find_draft in Hd.
  unfold send_email, try_except, bind, db_getitem, ObjectId, find_one,
    create_document, update_one, ret, raise.
  cbn [s_req_draft_id]. rewrite Ho. simpl. rewrite Hd, Ha. simpl.
  destruct (update_first (query_id_is (d_query_id d)) (set_status_sent now') (query st))
    as [[q|] l'] eqn:Hupd.
  - eexists. split; [reflexivity|]. simpl. repeat split; reflexivity.
  - eexists. split; [reflexivity|]. simpl. repeat split; try reflexivity.
    destruct (List.find (query_id_is (d_query_id d)) (query st)) as [q|] eqn:Hf.
    + destruct (update_first_some _ (set_status_sent now') _ _ Hf)
        as (pre & post & _ & _ & _ & Hu). rewrite Hu in Hupd. discriminate Hupd.
    + rewrite (update_first_none _ (set_status_sent now') _ Hf) in Hupd.
      injection Hupd as <-. reflexivity.
Qed.

(** X4: /send does not mark the draft: sending an approved draft twice
    succeeds twice and leaves two SentRecords with different identifiers
    and the same addressee, subject and body. *)
Theorem send_twice_duplicates now1 now1' now2 now2' did st o d :
  parse_oid did = Some o ->
  find_draft st o = Some d ->
  approved d = true ->
  exists id1 id2 st1 st2 r1 r2,
    send_email now1 now1' {| s_req_draft_id := did |} (Some st)
      = (Return {| sent_id := id1 |}, Some st1) /\
    send_email now2 now2' {| s_req_draft_id := did |} (Some st1)
      = (Return {| sent_id := id2 |}, Some st2) /\
    sent st2 = sent st ++ [r1; r2] /\
    s_id r1 <> s_id r2 /\
    s_to r1 = s_to r2 /\ s_subject r1 = s_subject r2 /\ s_body r1 = s_body r2 /\
    s_draft_id r1 = s_draft_id r2.
Proof.
  intros Ho Hd Ha.
  destruct (send_email_approved now1 now1' did st o d Ho Hd Ha)
    as (st1 & Hrun1 & Hs1 & Hd1 & _ & _ & Hn1 & _).
  assert (Hd' : find_draft st1 o = Some d)
    by (unfold find_draft in *; rewrite Hd1; exact Hd).
  destruct (send_email_approved now2 now2' did st1 o d Ho Hd' Ha)
    as (st2 & Hrun2 & Hs2 & _).
  exists (hex24 (next_oid st)), (hex24 (next_oid st1)), st1, st2,
    (sent_record_of d (VOid (next_oid st)) now1),
    (sent_record_of d (VOid (next_oid st1)) now2).
  split; [exact Hrun1|]. split; [exact Hrun2|].
  split; [rewrite Hs2, Hs1, <- app_assoc; reflexivity|].
  split; [|repeat split; reflexivity].
  simpl. rewrite Hn1. intros [= E]. lia.
Qed.

Lemma send_twice_duplicates_witness :
  exists id1 id2 st1 st2 r1 r2,
    send_email 50 51 {| s_req_draft_id := example_draft_id |} (Some (example_store true))
      = (Return {| sent_id := id1 |}, Some st1) /\
    send_email 60 61 {| s_req_draft_id := example_draft_id |} (Some st1)
      = (Return {| sent_id := id2 |}, Some st2) /\
    sent st2 = sent (example_store true) ++ [r1; r2] /\
    s_id r1 <> s_id r2 /\
    s_to r1 = s_to r2 /\ s_subject r1 = s_subject r2 /\ s_body r1 = s_body r2 /\
    s_draft_id r1 = s_draft_id r2.
Proof.
  apply (send_twice_duplicates 50 51 60 61 example_draft_id (example_store true)
           7%N (example_draft true)).
  - vm_compute. reflexivity.
  - vm_compute. reflexivity.
  - reflexivity.
Defined.

(** X5: the status update of /send compares the draft's [query_id] with
    the stored [_id] as values: when a query is keyed by that very value,
    the first such query gets status "sent" and the update timestamp;
    every other field of it, and every other query, stays as it was. *)
Theorem send_marks_query_with_equal_id now now' did st o d q :
  parse_oid did = Some o ->
  find_draft st o = Some d ->
  approved d = true ->
  List.find (query_id_is (d_query_id d)) (query st) = Some q ->
  exists sid st' pre post q',
    send_email now now' {| s_req_draft_id := did |} (Some st)
      = (Return {| sent_id := sid |}, Some st') /\
    query st = pre ++ q :: post /\
    query st' = pre ++ q' :: post /\
    Forall (fun x => query_id_is (d_query_id d) x = false) pre /\
    status q' = Some (VStr "sent") /\
    q_updated_at q' = Some now' /\
    q_id q' = q_id q /\ q_subject q' = q_subject q /\
    sender_email q' = sender_email q /\ sender_name q' = sender_name q /\
    received_at q' = received_at q /\ deadline q' = deadline q /\
    body_text q' = body_text q /\
    source_message_id q' = source_message_id q /\
    tags q' = tags q.
Proof.
  intros Ho Hd Ha Hq.
  destruct (send_email_approved now now' did st o d Ho Hd Ha)
    as (st' & Hrun & _ & _ & _ & _ & _ & Hquery).
  destruct (update_first_some _ (set_status_sent now') _ _ Hq)
    as (pre & post & Hl & Hpre & _ & Hu).
  rewrite Hu in Hquery. simpl in Hquery.
  exists (hex24 (next_oid st)), st', pre, post, (set_status_sent now' q).
  split; [exact Hrun|]. split; [exact Hl|]. split; [exact Hquery|].
  split; [exact Hpre|].
  repeat split; reflexivity.
Qed.

Lemma send_marks_query_with_equal_id_witness :
  exists sid st' pre post q',
    send_email 50 51 {| s_req_draft_id := example_draft_id |} (Some string_keyed_store)
      = (Return {| sent_id := sid |}, Some st') /\
    query string_keyed_store = pre ++ string_keyed_query :: post /\
    query st' = pre ++ q' :: post /\
    Forall (fun x => query_id_is (d_query_id string_keyed_draft) x = false) pre /\
    status q' = Some (VStr "sent") /\
    q_updated_at q' = Some 51 /\
    q_id q' = q_id string_keyed_query /\ q_subject q' = q_subject string_keyed_query /\
    sender_email q' = sender_email string_keyed_query /\
    sender_name q' = sender_name string_keyed_query /\
    received_at q' = received_at string_keyed_query /\
    deadline q' = deadline string_keyed_query /\
    body_text q' = body_text string_keyed_query /\
    source_message_id q' = source_message_id string_keyed_query /\
    tags q' = tags string_keyed_query.
Proof.
  apply (send_marks_query_with_equal_id 50 51 example_draft_id string_keyed_store
           7%N string_keyed_draft string_keyed_query).
  - vm_compute. reflexivity.
  - vm_compute. reflexivity.
  - reflexivity.
  - vm_compute. reflexivity.
Defined.

(** X6: the approval gate composes with /send.  After approve(true) on a
    stored draft, /send succeeds and records the draft's addressee,
    subject and body; after approve(false), /send fails with the 500 that
    wraps "Draft not approved" and records nothing. *)
Theorem approve_then_send now now1 now2 did st o d :
  parse_oid did = Some o ->
  find_draft st o = Some d ->
  (exists u st1 sid st2,
      approve_draft now {| a_draft_id := did; a_approved := true |} (Some st)
        = (Return u, Some st1) /\
      send_email now1 now2 {| s_req_draft_id := did |} (Some st1)
        = (Return {| sent_id := sid |}, Some st2) /\
      exists r,
        sent st2 = sent st ++ [r] /\
        s_to r = to_email d /\ s_subject r = d_subject d /\ s_body r = d_body d /\
        sent_at r = now1) /\
  (exists u st1,
      approve_draft now {| a_draft_id := did; a_approved := false |} (Some st)
        = (Return u, Some st1) /\
      send_email now1 now2 {| s_req_draft_id := did |} (Some st1)
        = (Raise (wrapped_500 400 "Draft not approved"), Some st1) /\
      sent st1 = sent st).
Proof.
  intros Ho Hd.
  pose proof (find_draft_matches _ _ _ Hd) as Hm.
  split.
  - destruct (approve_draft_found now {| a_draft_id := did; a_approved := true |}
                st o d Ho Hd) as (pre & post & Hl & Hpre & Hrun).
    cbn [a_approved] in Hrun.
    set (st1 := set_docs emaildraft_c (pre ++ set_approval true now d :: post) st) in *.
    assert (Hd1 : find_draft st1 o = Some (set_approval true now d))
      by (apply (find_draft_after_approve true now st o d pre post Hl Hpre Hm)).
    destruct (send_email_approved now1 now2 did st1 o _ Ho Hd1 eq_refl)
      as (st2 & Hsend & Hsent & _).
    eexists. exists st1, (hex24 (next_oid st1)), st2.
    split; [exact Hrun|]. split; [exact Hsend|].
    eexists. split; [exact Hsent|]. repeat split; reflexivity.
  - destruct (approve_draft_found now {| a_draft_id := did; a_approved := false |}
                st o d Ho Hd) as (pre & post & Hl & Hpre & Hrun).
    cbn [a_approved] in Hrun.
    set (st1 := set_docs emaildraft_c (pre ++ set_approval false now d :: post) st) in *.
    assert (Hd1 : find_draft st1 o = Some (set_approval false now d))
      by (apply (find_draft_after_approve false now st o d pre post Hl Hpre Hm)).
    eexists. exists st1. split; [exact Hrun|]. split; [|reflexivity].
    unfold find_draft in Hd1.
    unfold send_email, try_except, bind, db_getitem, ObjectId, find_one, ret, raise.
    cbn [s_req_draft_id]. rewrite Ho. simpl. simpl in Hd1. rewrite Hd1. reflexivity.
Qed.

Lemma approve_then_send_witness :
  (exists u st1 sid st2,
      approve_draft 20 {| a_draft_id := example_draft_id; a_approved := true |}
        (Some (example_store false)) = (Return u, Some st1) /\
      send_email 30 31 {| s_req_draft_id := example_draft_id |} (Some st1)
        = (Return {| sent_id := sid |}, Some st2) /\
      exists r,
        sent st2 = sent (example_store false) ++ [r] /\
        s_to r = to_email (example_draft false) /\
        s_subject r = d_subject (example_draft false) /\
        s_body r = d_body (example_draft false) /\
        sent_at r = 30) /\
  (exists u st1,
      approve_draft 20 {| a_draft_id := example_draft_id; a_approved := false |}
        (Some (example_store false)) = (Return u, Some st1) /\
      send_email 30 31 {| s_req_draft_id := example_draft_id |} (Some st1)
        = (Raise (wrapped_500 400 "Draft not approved"), Some st1) /\
      sent st1 = sent (example_store false)).
Proof.
  apply (approve_then_send 20 30 31 example_draft_id (example_store false)
           7%N (example_draft false)).
  - vm_compute. reflexivity.
  - vm_compute. reflexivity.
Defined.

(** ** /pitch: what a successful call writes *)

Lemma generate_pitch_found now req st target :
  reachable_query st (query_id req) = Some target ->
  generate_pitch now req (Some st)
  = (Return {| pitch_id := hex24 (next_oid st);
               pitch_content := join LF (pitch_lines (resolved_pitch_style st) target) |},
     Some (set_docs pitch_c
             (pitch st ++
              [{| p_id := VOid (next_oid st);
                  p_query_id := VStr (query_id req);
                  content := Some (VStr (join LF (pitch_lines (resolved_pitch_style st) target)));
                  style_used := (get (tone (resolved_pitch_style st)),
                                 get (voice (resolved_pitch_style st)));
                  p_created_at := now |}])
             (bump_oid st))).
Proof.
  intros Hq. unfold reachable_query in Hq.
  unfold generate_pitch, bind.
  rewrite get_documents_settings_1, get_documents_query_200, Hq.
  reflexivity.
Qed.



(** ** /draft: composition, frame and template edge cases *)

Lemma string_app_nil_r (s : string) : s +:+ "" = s.
Proof.
  induction s as [|c s IH]; [reflexivity|].
  change (String c (s +:+ "") = String c s). f_equal. exact IH.
Qed.

Lemma find_app_none {A} (f : A -> bool) (l1 l2 : list A) :
  List.find f l1 = None -> List.find f (l1 ++ l2) = List.find f l2.
Proof.
  induction l1 as [|x l1 IH]; simpl; [reflexivity|].
  destruct (f x); [discriminate|]. exact IH.
Qed.

Section DraftExtras.

Variable format_object :
  kwargs -> value -> string -> option ascii -> string -> error + string.

Lemma draft_email_store now req st target it sg intro signature :
  reachable_query st (query_id req) = Some target ->
  get_default (intro_template (resolved_draft_style st)) (VStr "") = VStr it ->
  get_default (signature_template (resolved_draft_style st)) (VStr "") = VStr sg ->
  format format_object it
    (intro_kwargs (resolved_draft_style st)
       (or_else (get (sender_name target)) (VStr "there"))) = inr intro ->
  format format_object sg (signature_kwargs (resolved_draft_style st)) = inr signature ->
  draft_email format_object now req (Some st)
  = (Return {| draft_id := hex24 (next_oid st);
               body := intro +:+ LF +:+ LF +:+ pitch_text_for st (query_id req)
                       +:+ signature |},
     Some (set_docs emaildraft_c
             (emaildraft st ++
              [{| d_id := VOid (next_oid st);
                  d_query_id := VStr (query_id req);
                  to_email := get (sender_email target);
                  d_subject := get (q_subject target);
                  d_body := VStr (intro +:+ LF +:+ LF +:+ pitch_text_for st (query_id req)
                                  +:+ signature);
                  approved := false;
                  d_created_at := now;
                  updated_at := None |}])
             (bump_oid st))).
Proof.
  intros Hq Hit Hsg Hi Hs.
  rewrite (draft_email_found format_object now req st target Hq).
  unfold bind at 1. rewrite Hit. simpl value_format. rewrite Hi. unfold ret at 1.
  unfold bind at 1. rewrite Hsg. simpl value_format. rewrite Hs. unfold ret at 1.
  reflexivity.
Qed.

(** X8: for a query its lookup finds, when both templates render, /draft
    appends exactly one EmailDraft: unapproved, without [updated_at],
    addressed to the query's [sender_email], with the query's subject, the
    requested query id and the returned body, stored under the returned
    id; the query (its status included), the pitches, the sent records and
    the settings are left as they were. *)
Theorem draft_appends_one_unapproved now req st target it sg intro signature :
  reachable_query st (query_id req) = Some target ->
  get_default (intro_template (resolved_draft_style st)) (VStr "") = VStr it ->
  get_default (signature_template (resolved_draft_style st)) (VStr "") = VStr sg ->
  format format_object it
    (intro_kwargs (resolved_draft_style st)
       (or_else (get (sender_name target)) (VStr "there"))) = inr intro ->
  format format_object sg (signature_kwargs (resolved_draft_style st)) = inr signature ->
  exists r st' d,
    draft_email format_object now req (Some st) = (Return r, Some st') /\
    emaildraft st' = emaildraft st ++ [d] /\
    approved d = false /\ updated_at d = None /\ d_created_at d = now /\
    to_email d = get (sender_email target) /\
    d_subject d = get (q_subject target) /\
    d_query_id d = VStr (query_id req) /\
    d_body d = VStr (body r) /\
    str (d_id d) = draft_id r /\
    query st' = query st /\ pitch st' = pitch st /\
    sent st' = sent st /\ settings st' = settings st.
Proof.
  intros Hq Hit Hsg Hi Hs.
  rewrite (draft_email_store now req st target it sg intro signature Hq Hit Hsg Hi Hs).
  eexists. eexists. eexists. split; [reflexivity|]. simpl.
  repeat split; reflexivity.
Qed.

(** X9: the query lookup of /draft comes before any rendering: for an id
    that none of the first 200 queries carries the call answers the 404
    "Query not found" whatever the settings and templates are, and writes
    nothing. *)
Theorem draft_unknown_query_is_404 now req st :
  (forall q, In q (take 200 (query st)) -> str (q_id q) <> query_id req) ->
  draft_email format_object now req (Some st)
    = (Raise (HTTPException 404 (Text "Query not found")), Some st) /\
  http_status (fst (draft_email format_object now req (Some st))) = 404.
Proof.
  intros Hnot.
  assert (Hrun : draft_email format_object now req (Some st)
                 = (Raise (HTTPException 404 (Text "Query not found")), Some st)).
  { unfold draft_email, bind.
    rewrite get_documents_settings_1, get_documents_query_200.
    rewrite (find_query_none _ _ Hnot). reflexivity. }
  rewrite Hrun. split; reflexivity.
Qed.


(** X12: the intro is rendered with [name], [your_name] and [your_title]
    only, and the signature without [name]: an intro template that
    references [your_website], or a signature template that references
    [name], makes /draft fail with an uncaught exception, answered with
    the generic 500, and no draft is written. *)
Theorem unpassed_placeholder_is_unhandled now req st target :
  reachable_query st (query_id req) = Some target ->
  (exists t,
      get_default (intro_template (resolved_draft_style st)) (VStr "") = VStr t /\
      template_references t "your_website") \/
  (exists t,
      get_default (signature_template (resolved_draft_style st)) (VStr "") = VStr t /\
      template_references t "name") ->
  exists e,
    draft_email format_object now req (Some st) = (Raise (Error e), Some st) /\
    http_status (fst (draft_email format_object now req (Some st))) = 500.
Proof.
  intros Hq Href.
  assert (Hrun : exists e,
             draft_email format_object now req (Some st) = (Raise (Error e), Some st)).
  { rewrite (draft_email_found format_object now req st target Hq).
    set (style := resolved_draft_style st) in *.
    set (name := or_else (get (sender_name target)) (VStr "there")).
    destruct Href as [(t & Ht & Hr)|(t & Ht & Hr)].
    - destruct (format_unknown format_object t (intro_kwargs style name)
                  "your_website" Hr eq_refl) as [e He].
      exists e. unfold bind. rewrite Ht. simpl. rewrite He. reflexivity.
    - unfold bind at 1.
      destruct (value_format_cases format_object
                  (get_default (intro_template style) (VStr ""))
                  (intro_kwargs style name) (Some st)) as [[s Hs']|[e He]].
      + rewrite Hs'. unfold bind at 1.
        destruct (format_unknown format_object t (signature_kwargs style)
                    "name" Hr eq_refl) as [e He].
        exists e. rewrite Ht. simpl. rewrite He. reflexivity.
      + exists e. rewrite He. reflexivity. }
  destruct Hrun as [e Hrun]. exists e. rewrite Hrun. split; reflexivity.
Qed.

(** X13: the built-in templates stand in only when there is no settings
    document at all.  With a stored settings document that lacks both
    template keys, the intro and the signature are empty and the body is a
    blank line followed by the pitch text. *)
Theorem settings_without_templates now req st target s others :
  reachable_query st (query_id req) = Some target ->
  settings st = s :: others ->
  intro_template s = None ->
  signature_template s = None ->
  exists did st',
    draft_email format_object now req (Some st)
      = (Return {| draft_id := did;
                   body := LF +:+ LF +:+ pitch_text_for st (query_id req) |},
         Some st').
Proof.
  intros Hq Hset Hi Hs.
  assert (Hstyle : resolved_draft_style st = s)
    by (unfold resolved_draft_style; rewrite Hset; reflexivity).
  rewrite (draft_email_store now req st target "" "" "" "" Hq).
  - rewrite string_app_nil_r. eexists. eexists. reflexivity.
  - rewrite Hstyle, Hi. reflexivity.
  - rewrite Hstyle, Hs. reflexivity.
  - reflexivity.
  - reflexivity.
Qed.

(** X14: a key that is present and null is not replaced by its default.
    With a settings document that holds the built-in signature template
    and null [your_name], [your_title] and [your_website], the signature
    reads "Best," followed by three lines "None". *)
Theorem null_identity_renders_none now req st target s others it intro :
  reachable_query st (query_id req) = Some target ->
  settings st = s :: others ->
  signature_template s = Some (VStr default_signature_template) ->
  your_name s = Some VNone ->
  your_title s = Some VNone ->
  your_website s = Some VNone ->
  get_default (intro_template s) (VStr "") = VStr it ->
  format format_object it
    (intro_kwargs s (or_else (get (sender_name target)) (VStr "there"))) = inr intro ->
  exists did st',
    draft_email format_object now req (Some st)
      = (Return {| draft_id := did;
                   body := intro +:+ LF +:+ LF +:+ pitch_text_for st (query_id req)
                           +:+ none_signature |},
         Some st').
Proof.
  intros Hq Hset Hsig Hn Ht Hw Hit Hi.
  assert (Hstyle : resolved_draft_style st = s)
    by (unfold resolved_draft_style; rewrite Hset; reflexivity).
  rewrite (draft_email_store now req st target it default_signature_template
             intro none_signature Hq).
  - eexists. eexists. reflexivity.
  - rewrite Hstyle. exact Hit.
  - rewrite Hstyle, Hsig. reflexivity.
  - rewrite Hstyle. exact Hi.
  - rewrite Hstyle. unfold signature_kwargs. rewrite Hn, Ht, Hw.
    vm_compute. reflexivity.
Qed.

Lemma format_no_braces (t : string) (kw : kwargs) :
  no_braces t = true -> format format_object t kw = inr t.
Proof.
  intros Hb.
  assert (H : exists ms, scan InText t = (ms, None) /\
                         render format_object kw ms = inr t).
  { induction t as [|c r IH]; [exists []; split; reflexivity|].
    simpl in Hb. apply andb_prop in Hb. destruct Hb as [Hb Hr].
    apply andb_prop in Hb. destruct Hb as [Hl Hrb].
    apply negb_true_iff in Hl, Hrb.
    destruct (IH Hr) as (ms & Hscan & Hrender).
    exists (Literal c :: ms). cbn [scan]. rewrite Hl, Hrb, Hscan.
    split; [reflexivity|]. cbn [render]. rewrite Hrender. reflexivity. }
  destruct H as (ms & Hscan & Hrender).
  unfold format. rewrite Hscan, Hrender. reflexivity.
Qed.

(** X15: templates without braces are used as they are: the body is the
    intro template, a blank line, the pitch text and the signature
    template, whatever the identity fields hold. *)
Theorem templates_without_braces_verbatim now req st target it sg :
  reachable_query st (query_id req) = Some target ->
  get_default (intro_template (resolved_draft_style st)) (VStr "") = VStr it ->
  get_default (signature_template (resolved_draft_style st)) (VStr "") = VStr sg ->
  no_braces it = true ->
  no_braces sg = true ->
  exists did st',
    draft_email format_object now req (Some st)
      = (Return {| draft_id := did;
                   body := it +:+ LF +:+ LF +:+ pitch_text_for st (query_id req) +:+ sg |},
         Some st').
Proof.
  intros Hq Hit Hsg Hbi Hbs.
  rewrite (draft_email_store now req st target it sg it sg Hq Hit Hsg).
  - eexists. eexists. reflexivity.
  - apply format_no_braces. exact Hbi.
  - apply format_no_braces. exact Hbs.
Qed.

End DraftExtras.

Lemma draft_appends_one_unapproved_witness :
  exists r st' d,
    draft_email no_format_object 40 example_request (Some (example_store false))
      = (Return r, Some st') /\
    emaildraft st' = emaildraft (example_store false) ++ [d] /\
    approved d = false /\ updated_at d = None /\ d_created_at d = 40 /\
    to_email d = VStr "jane@x.com" /\
    d_subject d = VStr "Need psych expert" /\
    d_query_id d = VStr "000000000000000000000003" /\
    d_body d = VStr (body r) /\
    str (d_id d) = draft_id r /\
    query st' = query (example_store false) /\ pitch st' = pitch (example_store false) /\
    sent st' = sent (example_store false) /\ settings st' = settings (example_store false).
Proof.
  apply (draft_appends_one_unapproved no_format_object 40 example_request
           (example_store false) example_query
           default_intro_template default_signature_template
           jane_intro rendered_default_signature).
  - vm_compute. reflexivity.
  - reflexivity.
  - reflexivity.
  - vm_compute. reflexivity.
  - vm_compute. reflexivity.
Defined.

Lemma draft_unknown_query_is_404_witness :
  draft_email no_format_object 40 {| query_id := "0000000000000000000000aa" |}
    (Some first_name_store)
    = (Raise (HTTPException 404 (Text "Query not found")), Some first_name_store) /\
  http_status (fst (draft_email no_format_object 40
                      {| query_id := "0000000000000000000000aa" |}
                      (Some first_name_store))) = 404.
Proof.
  apply (draft_unknown_query_is_404 no_format_object 40
           {| query_id := "0000000000000000000000aa" |} first_name_store).
  apply not_among_by_scan. vm_compute. reflexivity.
Defined.


Lemma unpassed_placeholder_is_unhandled_witness :
  exists e,
    draft_email no_format_object 40 example_request (Some website_intro_store)
      = (Raise (Error e), Some website_intro_store) /\
    http_status (fst (draft_email no_format_object 40 example_request
                        (Some website_intro_store))) = 500.
Proof.
  apply (unpassed_placeholder_is_unhandled no_format_object 40 example_request
           website_intro_store example_query).
  - vm_compute. reflexivity.
  - left. exists "Hi {name}, see {your_website}". split; [reflexivity|].
    exists "your_website", None, "". split; [|reflexivity].
    vm_compute. do 10 right. left. reflexivity.
Defined.

Lemma settings_without_templates_witness :
  exists did st',
    draft_email no_format_object 40 example_request (Some bare_settings_store)
      = (Return {| draft_id := did; body := LF +:+ LF +:+ placeholder_pitch |},
         Some st').
Proof.
  apply (settings_without_templates no_format_object 40 example_request
           bare_settings_store example_query bare_settings []).
  - vm_compute. reflexivity.
  - reflexivity.
  - reflexivity.
  - reflexivity.
Defined.

Lemma null_identity_renders_none_witness :
  exists did st',
    draft_email no_format_object 40 example_request (Some null_identity_store)
      = (Return {| draft_id := did;
                   body := (jane_greeting +:+ ". I'm None, a None.") +:+ LF +:+ LF
                           +:+ placeholder_pitch +:+ none_signature |},
         Some st').
Proof.
  apply (null_identity_renders_none no_format_object 40 example_request
           null_identity_store example_query null_identity_settings []
           default_intro_template).
  - vm_compute. reflexivity.
  - reflexivity.
  - reflexivity.
  - reflexivity.
  - reflexivity.
  - reflexivity.
  - reflexivity.
  - vm_compute. reflexivity.
Defined.

Lemma templates_without_braces_verbatim_witness :
  exists did st',
    draft_email no_format_object 40 example_request (Some plain_settings_store)
      = (Return {| draft_id := did;
                   body := "Hello," +:+ LF +:+ LF +:+ placeholder_pitch +:+ "Regards" |},
         Some st').
Proof.
  apply (templates_without_braces_verbatim no_format_object 40 example_request
           plain_settings_store example_query "Hello," "Regards").
  - vm_compute. reflexivity.
  - reflexivity.
  - reflexivity.
  - reflexivity.
  - reflexivity.
Defined.

(** ** /parse: edge cases and numbering *)

(** X16: a [limit] of zero or below inserts nothing: the call answers
    [inserted = 0] with no ids and leaves the store as it was, even when
    no database is configured. *)
Theorem parse_nonpositive_limit now lim db :
  lim <= 0 ->
  parse_newsletters now {| limit := lim |} db
    = (Return {| inserted := 0; ids := [] |}, db).
Proof.
  intros Hlim. unfold parse_newsletters. cbn [limit].
  unfold range. rewrite seqZ_nil by exact Hlim. reflexivity.
Qed.

Lemma parse_nonpositive_limit_witness :
  parse_newsletters 9 {| limit := -5 |} None
    = (Return {| inserted := 0; ids := [] |}, None).
Proof.
  apply (parse_nonpositive_limit 9 (-5) None). lia.
Defined.

Lemma string_app_cancel (p a b : string) : p +:+ a = p +:+ b -> a = b.
Proof.
  induction p as [|c p IH]; intros H; [exact H|].
  change (String c (p +:+ a) = String c (p +:+ b)) in H.
  injection H as H. exact (IH H).
Qed.

Lemma string_length_app (a b : string) :
  String.length (a +:+ b) = (String.length a + String.length b)%nat.
Proof.
  induction a as [|c a IH]; [reflexivity|].
  change (S (String.length (a +:+ b)) = S (String.length a + String.length b)).
  rewrite IH. reflexivity.
Qed.

Lemma string_app_cancel_r (a b c : string) : a +:+ c = b +:+ c -> a = b.
Proof.
  revert b. induction a as [|ca a IH]; intros [|cb b] H.
  - reflexivity.
  - exfalso. apply (f_equal String.length) in H.
    rewrite !string_length_app in H. cbn [String.length] in H. lia.
  - exfalso. apply (f_equal String.length) in H.
    rewrite !string_length_app in H. cbn [String.length] in H. lia.
  - change (String ca (a +:+ c) = String cb (b +:+ c)) in H.
    injection H as -> H. f_equal. exact (IH b H).
Qed.

Lemma map_is_fmap {A B} (f : A -> B) (l : list A) : map f l = f <$> l.
Proof. induction l as [|x l IH]; [reflexivity|]. simpl. rewrite IH. reflexivity. Qed.

Lemma assigned_sample_fields now (l : list Z) :
  forall n,
    map q_subject (assigned (map (sample_item now) l) n)
      = map (fun i => Some (VStr ("Call for psychology expert comment #"
                                  +:+ str_int (i + 1)))) l /\
    map sender_email (assigned (map (sample_item now) l) n)
      = map (fun i => Some (VStr ("editor" +:+ str_int (i + 1)
                                  +:+ "@newsletter.com"))) l.
Proof.
  induction l as [|i l IH]; intros n; [split; reflexivity|].
  destruct (IH (N.succ n)) as [H1 H2].
  cbn [map assigned]. rewrite H1, H2. split; reflexivity.
Qed.

Lemma deadline_whole_second (now : datetime) :
  replace_microsecond_0 now <= now < replace_microsecond_0 now + 1000 /\
  replace_microsecond_0 now mod 1000 = 0.
Proof.
  unfold replace_microsecond_0.
  pose proof (Z.mod_pos_bound now 1000 ltac:(lia)) as Hb.
  split; [lia|].
  assert (E : now - now mod 1000 = now / 1000 * 1000)
    by (pose proof (Z.div_mod now 1000 ltac:(lia)); lia).
  rewrite E. apply Z.mod_mul. lia.
Qed.

Lemma assigned_sample_numbering now (l : list Z) :
  forall n,
    Forall2 (fun i q =>
      q_subject q = Some (VStr ("Call for psychology expert comment #"
                                +:+ str_int (i + 1))) /\
      sender_email q = Some (VStr ("editor" +:+ str_int (i + 1) +:+ "@newsletter.com")) /\
      source_message_id q = Some (VStr ("sim-" +:+ str_int (i + 1))) /\
      received_at q = Some now /\
      (exists dl, deadline q = Some dl /\ dl <= now < dl + 1000 /\ dl mod 1000 = 0) /\
      tags q = ["psych"; "newsletter"])
      l (assigned (map (sample_item now) l) n).
Proof.
  induction l as [|i l IH]; intros n; [constructor|].
  cbn [map assigned]. constructor; [|apply IH].
  cbn. repeat split.
  exists (replace_microsecond_0 now). split; [reflexivity|].
  apply deadline_whole_second.
Qed.

(** X17: the queries /parse creates are numbered from 1 in the order of
    insertion: the one at position [i] has subject "Call for psychology
    expert comment #i+1", sender "editor<i+1>@newsletter.com" and message
    id "sim-<i+1>", is received at the time of the call, and has that time
    cut to the whole second as its deadline.  The subjects, and the sender
    addresses, of one call are pairwise different. *)
Theorem parse_numbers_queries now lim st :
  exists r st' new,
    parse_newsletters now {| limit := lim |} (Some st) = (Return r, Some st') /\
    query st' = query st ++ new /\
    Forall2 (fun i q =>
      q_subject q = Some (VStr ("Call for psychology expert comment #"
                                +:+ str_int (i + 1))) /\
      sender_email q = Some (VStr ("editor" +:+ str_int (i + 1) +:+ "@newsletter.com")) /\
      source_message_id q = Some (VStr ("sim-" +:+ str_int (i + 1))) /\
      received_at q = Some now /\
      (exists dl, deadline q = Some dl /\ dl <= now < dl + 1000 /\ dl mod 1000 = 0) /\
      tags q = ["psych"; "newsletter"])
      (range lim) new /\
    NoDup (map q_subject new) /\
    NoDup (map sender_email new).
Proof.
  destruct (insert_items_run (map (sample_item now) (range lim)) [] st)
    as (st' & Hrun & Hq & _).
  eexists. exists st', (assigned (map (sample_item now) (range lim)) (next_oid st)).
  split.
  { unfold parse_newsletters, bind, ret. cbn [limit]. rewrite Hrun. reflexivity. }
  split; [exact Hq|].
  split; [apply assigned_sample_numbering|].
  destruct (assigned_sample_fields now (range lim) (next_oid st)) as [H1 H2].
  rewrite H1, H2, !map_is_fmap. split.
  - apply NoDup_fmap_2; [|apply NoDup_seqZ].
    intros x y [= H]. apply string_app_cancel in H.
    apply (inj pretty) in H. lia.
  - apply NoDup_fmap_2; [|apply NoDup_seqZ].
    intros x y [= H]. apply string_app_cancel in H.
    apply string_app_cancel_r in H. apply (inj pretty) in H. lia.
Qed.

(** ** /queries *)

Lemma in_take {A} (n : nat) (l : list A) (x : A) : In x (take n l) -> In x l.
Proof.
  revert n. induction l as [|y l IH]; intros [|n]; simpl; try tauto.
  intros [->|H]; [left; reflexivity|right; exact (IH n H)].
Qed.

Section ListProperties.

Variable isoformat : datetime -> string.

Lemma list_queries_run (status_ : option string) (st : Store) :
  list_queries isoformat status_ (Some st)
  = (Return {| items := map (to_item isoformat)
                          (take 200 (List.filter (status_filter status_) (query st))) |},
     Some st).
Proof. reflexivity. Qed.

(** X18: /queries answers at most 200 items, taken in the store's order,
    and leaves the store as it was.  With a non-empty [status] every item
    has that status; with no [status], or the empty string, the items are
    the first 200 queries unfiltered.  The [_id] of every item is a
    string. *)
Theorem list_queries_filters status_ st :
  exists its,
    list_queries isoformat status_ (Some st) = (Return {| items := its |}, Some st) /\
    (List.length its <= 200)%nat /\
    (forall s, status_ = Some s -> s <> "" ->
       Forall (fun it => i_status it = Some (VStr s)) its /\
       its = map (to_item isoformat)
               (take 200 (List.filter (fun q => bool_decide (status q = Some (VStr s)))
                            (query st)))) /\
    (status_ = None \/ status_ = Some "" ->
       its = map (to_item isoformat) (take 200 (query st))) /\
    Forall (fun it => exists s, i_id it = VStr s) its.
Proof.
  eexists. split; [apply list_queries_run|].
  split; [rewrite length_map, length_take; lia|].
  split; [|split].
  - intros s -> Hs. unfold status_filter.
    destruct (String.eqb_spec s ""); [contradiction|].
    split; [|reflexivity].
    apply Forall_map. apply Forall_forall. intros q Hin.
    apply list_elem_of_In, in_take, List.filter_In in Hin.
    destruct Hin as [_ Hb]. cbn [i_status to_item].
    apply bool_decide_eq_true_1 in Hb. exact Hb.
  - intros [-> | ->]; cbn [status_filter String.eqb]; rewrite filter_all; reflexivity.
  - apply Forall_map. apply Forall_forall. intros q _. cbn. eauto.
Qed.

(** X19: an id listed by an unfiltered /queries is one /pitch accepts:
    the call with that id finds a query carrying it and answers 200 with a
    pitch for that query. *)
Theorem listed_id_is_pitchable now status_ st its it :
  status_ = None \/ status_ = Some "" ->
  list_queries isoformat status_ (Some st) = (Return {| items := its |}, Some st) ->
  In it its ->
  exists target r st',
    str (q_id target) = str (i_id it) /\
    generate_pitch now {| query_id := str (i_id it) |} (Some st) = (Return r, Some st') /\
    pitch_content r = join LF (pitch_lines (resolved_pitch_style st) target) /\
    http_status (fst (generate_pitch now {| query_id := str (i_id it) |} (Some st))) = 200.
Proof.
  intros Hs Hrun Hin.
  rewrite list_queries_run in Hrun. injection Hrun as <-.
  assert (Hall : List.filter (status_filter status_) (query st) = query st)
    by (destruct Hs as [-> | ->]; cbn [status_filter String.eqb]; apply filter_all).
  rewrite Hall in Hin. apply List.in_map_iff in Hin.
  destruct Hin as (q & <- & Hq). cbn [i_id to_item str].
  destruct (reachable_query st (str (q_id q))) as [target|] eqn:Hfind.
  - pose proof Hfind as Hsome. unfold reachable_query, find_query in Hsome.
    apply List.find_some in Hsome. destruct Hsome as [_ Hid].
    apply String.eqb_eq in Hid.
    exists target. eexists. eexists. split; [exact Hid|].
    rewrite (generate_pitch_found now {| query_id := str (q_id q) |} st target Hfind).
    repeat split; reflexivity.
  - exfalso. unfold reachable_query, find_query in Hfind.
    pose proof (List.find_none _ _ Hfind q Hq) as Hno. cbn in Hno.
    rewrite String.eqb_refl in Hno. discriminate Hno.
Qed.

End ListProperties.

Lemma listed_id_is_pitchable_witness :
  exists target r st',
    str (q_id target) = "000000000000000000000003" /\
    generate_pitch 20 {| query_id := "000000000000000000000003" |}
      (Some (example_store false)) = (Return r, Some st') /\
    pitch_content r
      = join LF (pitch_lines (resolved_pitch_style (example_store false)) target).
Proof.
  destruct (listed_id_is_pitchable millis_text 20 None (example_store false)
              [to_item millis_text example_query] (to_item millis_text example_query))
    as (target & r & st' & Hid & Hrun & Hc & _).
  - left. reflexivity.
  - reflexivity.
  - left. reflexivity.
  - exists target, r, st'. split; [exact Hid|]. split; [exact Hrun|exact Hc].
Defined.

(** ** Store-assigned identifiers stay below the counter *)

Lemma id_below_succ (n : oid) (v : value) : id_below n v -> id_below (N.succ n) v.
Proof. intros (o & -> & Ho). exists o. split; [reflexivity|lia]. Qed.

Lemma id_below_fresh (n : oid) : id_below (N.succ n) (VOid n).
Proof. exists n. split; [reflexivity|lia]. Qed.

Lemma Forall_id_below_succ {A} (f : A -> value) (n : oid) (l : list A) :
  Forall (fun x => id_below n (f x)) l ->
  Forall (fun x => id_below (N.succ n) (f x)) l.
Proof. apply List.Forall_impl. intros x. apply id_below_succ. Qed.

Lemma update_first_Forall {A} (P : A -> Prop) (flt : A -> bool) (upd : A -> A)
    (l : list A) :
  (forall x, P x -> P (upd x)) ->
  Forall P l -> Forall P (snd (update_first flt upd l)).
Proof.
  intros Hupd. induction 1 as [|x l Hx Hl IH]; simpl; [constructor|].
  destruct (flt x).
  - simpl. constructor; [apply Hupd; exact Hx|exact Hl].
  - destruct (update_first flt upd l) as [m l']. simpl in *.
    constructor; assumption.
Qed.

Lemma keeps_ret {A} (a : A) : keeps_ids (ret a).
Proof. intros db H. exact H. Qed.

Lemma keeps_raise {A} (e : exn) : keeps_ids (raise (A := A) e).
Proof. intros db H. exact H. Qed.

Lemma keeps_bind {A B} (m : M A) (k : A -> M B) :
  keeps_ids m -> (forall a, keeps_ids (k a)) -> keeps_ids (bind m k).
Proof.
  intros Hm Hk db H. unfold bind. specialize (Hm db H).
  destruct (m db) as [[a|e] db']; simpl in *; [apply Hk; exact Hm|exact Hm].
Qed.

Lemma keeps_try_except {A} (m : M A) (h : exn -> M A) :
  keeps_ids m -> (forall e, keeps_ids (h e)) -> keeps_ids (try_except m h).
Proof.
  intros Hm Hh db H. unfold try_except. specialize (Hm db H).
  destruct (m db) as [[a|e] db']; simpl in *; [exact Hm|apply Hh; exact Hm].
Qed.

Lemma keeps_read_only {A} (m : M A) : (forall db, snd (m db) = db) -> keeps_ids m.
Proof. intros Hm db H. rewrite Hm. exact H. Qed.

Lemma keeps_get_documents {A} (c : Collection A) (flt : A -> bool) (n : nat) :
  keeps_ids (get_documents c flt n).
Proof. apply keeps_read_only. intros [st|]; reflexivity. Qed.

Lemma keeps_find_one {A} (c : Collection A) (flt : A -> bool) :
  keeps_ids (find_one c flt).
Proof. apply keeps_read_only. intros [st|]; reflexivity. Qed.

Lemma keeps_db_getitem : keeps_ids db_getitem.
Proof. apply keeps_read_only. intros [st|]; reflexivity. Qed.

Lemma keeps_ObjectId (s : string) : keeps_ids (ObjectId s).
Proof.
  apply keeps_read_only. intros db. unfold ObjectId.
  destruct (parse_oid s); reflexivity.
Qed.

Lemma keeps_create_query (data : value -> QueryDoc) :
  (forall v, q_id (data v) = v) -> keeps_ids (create_document query_c data).
Proof.
  intros Hid [st|] H; [|exact I]. destruct H as (Hq & Hp & Hd & Hs).
  unfold create_document. cbn. unfold ids_below. cbn.
  repeat split; try (apply Forall_id_below_succ; assumption).
  apply List.Forall_app. split; [apply Forall_id_below_succ; exact Hq|].
  constructor; [|constructor]. rewrite Hid. apply id_below_fresh.
Qed.

Lemma keeps_create_pitch (data : value -> PitchDoc) :
  (forall v, p_id (data v) = v) -> keeps_ids (create_document pitch_c data).
Proof.
  intros Hid [st|] H; [|exact I]. destruct H as (Hq & Hp & Hd & Hs).
  unfold create_document. cbn. unfold ids_below. cbn.
  repeat split; try (apply Forall_id_below_succ; assumption).
  apply List.Forall_app. split; [apply Forall_id_below_succ; exact Hp|].
  constructor; [|constructor]. rewrite Hid. apply id_below_fresh.
Qed.

Lemma keeps_create_draft (data : value -> DraftDoc) :
  (forall v, d_id (data v) = v) -> keeps_ids (create_document emaildraft_c data).
Proof.
  intros Hid [st|] H; [|exact I]. destruct H as (Hq & Hp & Hd & Hs).
  unfold create_document. cbn. unfold ids_below. cbn.
  repeat split; try (apply Forall_id_below_succ; assumption).
  apply List.Forall_app. split; [apply Forall_id_below_succ; exact Hd|].
  constructor; [|constructor]. rewrite Hid. apply id_below_fresh.
Qed.

Lemma keeps_create_sent (data : value -> SentDoc) :
  (forall v, s_id (data v) = v) -> keeps_ids (create_document sent_c data).
Proof.
  intros Hid [st|] H; [|exact I]. destruct H as (Hq & Hp & Hd & Hs).
  unfold create_document. cbn. unfold ids_below. cbn.
  repeat split; try (apply Forall_id_below_succ; assumption).
  apply List.Forall_app. split; [apply Forall_id_below_succ; exact Hs|].
  constructor; [|constructor]. rewrite Hid. apply id_below_fresh.
Qed.

Lemma keeps_update_draft (flt : DraftDoc -> bool) (upd : DraftDoc -> DraftDoc) :
  (forall d, d_id (upd d) = d_id d) -> keeps_ids (update_one emaildraft_c flt upd).
Proof.
  intros Hid [st|] H; [|exact I]. destruct H as (Hq & Hp & Hd & Hs).
  unfold update_one. cbn [docs emaildraft_c].
  pose proof (update_first_Forall (fun d => id_below (next_oid st) (d_id d))
                flt upd (emaildraft st)
                (fun d Hd' => eq_ind_r (id_below (next_oid st)) Hd' (Hid d)) Hd) as Hl.
  destruct (update_first flt upd (emaildraft st)) as [[d|] l']; cbn in *.
  - repeat split; assumption.
  - repeat split; assumption.
Qed.

Lemma keeps_update_query (flt : QueryDoc -> bool) (upd : QueryDoc -> QueryDoc) :
  (forall q, q_id (upd q) = q_id q) -> keeps_ids (update_one query_c flt upd).
Proof.
  intros Hid [st|] H; [|exact I]. destruct H as (Hq & Hp & Hd & Hs).
  unfold update_one. cbn [docs query_c].
  pose proof (update_first_Forall (fun q => id_below (next_oid st) (q_id q))
                flt upd (query st)
                (fun q Hq' => eq_ind_r (id_below (next_oid st)) Hq' (Hid q)) Hq) as Hl.
  destruct (update_first flt upd (query st)) as [[q|] l']; cbn in *.
  - repeat split; assumption.
  - repeat split; assumption.
Qed.

Lemma keeps_insert_items now (l : list Z) :
  forall acc, keeps_ids (insert_items (map (sample_item now) l) acc).
Proof.
  induction l as [|i l IH]; intros acc; cbn [map insert_items].
  - apply keeps_ret.
  - apply keeps_bind; [|intros a; apply IH].
    apply keeps_try_except; [|intros e; apply keeps_raise].
    apply keeps_create_query. reflexivity.
Qed.

Lemma keeps_value_format fo (v : value) (kw : kwargs) : keeps_ids (value_format fo v kw).
Proof.
  apply keeps_read_only. intros db. destruct v as [|t|o]; try reflexivity.
  simpl. destruct (format fo t kw); reflexivity.
Qed.

(** X20: every handler keeps the store well-keyed.  If every stored
    query, pitch, draft and sent record carries an ObjectId below the
    store's counter, then so it is after /parse, /pitch, /draft, /approve,
    /send and /queries, whatever they were asked and whether they
    answered or raised. *)
Theorem handlers_keep_ids_below fo iso db :
  db_ids_below db ->
  (forall now req, db_ids_below (snd (parse_newsletters now req db))) /\
  (forall now req, db_ids_below (snd (generate_pitch now req db))) /\
  (forall now req, db_ids_below (snd (draft_email fo now req db))) /\
  (forall now req, db_ids_below (snd (approve_draft now req db))) /\
  (forall now now' req, db_ids_below (snd (send_email now now' req db))) /\
  (forall status_, db_ids_below (snd (list_queries iso status_ db))).
Proof.
  intros H. repeat split.
  - intros now req. revert db H. change (keeps_ids (parse_newsletters now req)).
    unfold parse_newsletters. apply keeps_bind; [apply keeps_insert_items|].
    intros a. apply keeps_ret.
  - intros now req. revert db H. change (keeps_ids (generate_pitch now req)).
    unfold generate_pitch.
    apply keeps_bind; [apply keeps_get_documents|]. intros sd.
    apply keeps_bind; [apply keeps_get_documents|]. intros qd.
    destruct (find_query qd (query_id req)); [|apply keeps_raise].
    apply keeps_try_except; [|intros e; apply keeps_raise].
    apply keeps_bind; [apply keeps_create_pitch; reflexivity|].
    intros a. apply keeps_ret.
  - intros now req. revert db H. change (keeps_ids (draft_email fo now req)).
    unfold draft_email.
    apply keeps_bind; [apply keeps_get_documents|]. intros sd.
    apply keeps_bind; [apply keeps_get_documents|]. intros qd.
    destruct (find_query qd (query_id req)); [|apply keeps_raise].
    apply keeps_bind; [apply keeps_get_documents|]. intros pd.
    apply keeps_bind; [apply keeps_value_format|]. intros intro.
    apply keeps_bind; [apply keeps_value_format|]. intros signature.
    apply keeps_try_except; [|intros e; apply keeps_raise].
    apply keeps_bind; [apply keeps_create_draft; reflexivity|].
    intros a. apply keeps_ret.
  - intros now req. revert db H. change (keeps_ids (approve_draft now req)).
    unfold approve_draft.
    apply keeps_try_except; [|intros e; apply keeps_raise].
    apply keeps_bind; [apply keeps_db_getitem|]. intros u.
    apply keeps_bind; [apply keeps_ObjectId|]. intros o.
    apply keeps_bind; [apply keeps_update_draft; reflexivity|]. intros r.
    destruct (Z.eqb (matched_count r) 0); [apply keeps_raise|apply keeps_ret].
  - intros now now' req. revert db H. change (keeps_ids (send_email now now' req)).
    unfold send_email.
    apply keeps_try_except; [|intros e; apply keeps_raise].
    apply keeps_bind; [apply keeps_db_getitem|]. intros u.
    apply keeps_bind; [apply keeps_ObjectId|]. intros o.
    apply keeps_bind; [apply keeps_find_one|]. intros [draft|]; [|apply keeps_raise].
    destruct (negb (approved draft)); [apply keeps_raise|].
    apply keeps_bind; [apply keeps_create_sent; reflexivity|]. intros sid.
    apply keeps_bind; [apply keeps_update_query; reflexivity|]. intros r.
    apply keeps_ret.
  - intros status_. revert db H. change (keeps_ids (list_queries iso status_)).
    unfold list_queries.
    apply keeps_try_except; [|intros e; apply keeps_raise].
    apply keeps_bind; [apply keeps_get_documents|]. intros a. apply keeps_ret.
Qed.

Lemma example_store_ids_below (a : bool) : ids_below (example_store a).
Proof.
  unfold ids_below. cbn. repeat split; repeat constructor.
  - exists 3%N. split; [reflexivity|lia].
  - exists 7%N. split; [reflexivity|lia].
Qed.

Lemma handlers_keep_ids_below_witness :
  db_ids_below (snd (parse_newsletters 5 {| limit := 2 |} (Some (example_store true)))) /\
  db_ids_below (snd (send_email 50 51 {| s_req_draft_id := example_draft_id |}
                       (Some (example_store true)))).
Proof.
  destruct (handlers_keep_ids_below no_format_object millis_text
              (Some (example_store true))) as (Hparse & _ & _ & _ & Hsend & _).
  - apply example_store_ids_below.
  - split; [apply Hparse|apply Hsend].
Defined.

(** ** Pipelines *)

Lemma hex24_inj (o1 o2 : oid) :
  (o1 < 2 ^ 96)%N -> (o2 < 2 ^ 96)%N -> hex24 o1 = hex24 o2 -> o1 = o2.
Proof.
  intros H1 H2 E. apply (f_equal parse_oid) in E.
  rewrite !parse_oid_hex24, !N.mod_small in E by assumption.
  injection E as E. exact E.
Qed.

Lemma fresh_draft_id (st : Store) :
  ids_below st -> find_draft st (next_oid st) = None.
Proof.
  intros (_ & _ & Hd & _). unfold find_draft.
  induction Hd as [|d l (o & Hid & Ho) _ IH]; simpl; [reflexivity|].
  unfold draft_id_is at 1, value_eqb. rewrite Hid.
  rewrite bool_decide_eq_false_2; [exact IH|].
  intros [= E]. lia.
Qed.

Section Pipeline.

Variable format_object :
  kwargs -> value -> string -> option ascii -> string -> error + string.

(** X21: /draft, /approve and /send compose through the returned id.  In
    a well-keyed store, a draft made for a query can be approved under the
    [draft_id] /draft returned, which answers [updated = true], and then
    sent: the one SentRecord added is addressed to the query's
    [sender_email], has the query's subject and the drafted body, and
    refers to that [draft_id]. *)
Theorem draft_approve_send now1 now2 now3 now4 req st target it sg intro signature :
  ids_below st ->
  (next_oid st < 2 ^ 96)%N ->
  reachable_query st (query_id req) = Some target ->
  get_default (intro_template (resolved_draft_style st)) (VStr "") = VStr it ->
  get_default (signature_template (resolved_draft_style st)) (VStr "") = VStr sg ->
  format format_object it
    (intro_kwargs (resolved_draft_style st)
       (or_else (get (sender_name target)) (VStr "there"))) = inr intro ->
  format format_object sg (signature_kwargs (resolved_draft_style st)) = inr signature ->
  exists r st1 st2 sid st3 rec,
    draft_email format_object now1 req (Some st) = (Return r, Some st1) /\
    approve_draft now2 {| a_draft_id := draft_id r; a_approved := true |} (Some st1)
      = (Return {| updated := true |}, Some st2) /\
    send_email now3 now4 {| s_req_draft_id := draft_id r |} (Some st2)
      = (Return {| sent_id := sid |}, Some st3) /\
    sent st3 = sent st ++ [rec] /\
    s_to rec = get (sender_email target) /\
    s_subject rec = get (q_subject target) /\
    s_body rec = VStr (body r) /\
    s_draft_id rec = draft_id r /\
    sent_at rec = now3.
Proof.
  intros Hids Hn Hq Hit Hsg Hi Hs.
  pose proof (draft_email_store format_object now1 req st target it sg intro signature
                Hq Hit Hsg Hi Hs) as Hdraft.
  match type of Hdraft with
  | _ = (Return ?r0, Some ?s1) => set (r := r0) in *; set (st1 := s1) in *
  end.
  match eval unfold st1 in st1 with
  | set_docs _ (_ ++ [?d0]) _ => set (d := d0) in *
  end.
  assert (Ho : parse_oid (draft_id r) = Some (next_oid st))
    by (cbn [draft_id r]; rewrite parse_oid_hex24, N.mod_small by exact Hn; reflexivity).
  assert (Hd : find_draft st1 (next_oid st) = Some d).
  { unfold find_draft, st1. cbn [emaildraft set_docs emaildraft_c].
    rewrite find_app_none by exact (fresh_draft_id st Hids).
    cbn [List.find]. unfold draft_id_is, value_eqb. cbn [d_id d].
    rewrite bool_decide_eq_true_2 by reflexivity. reflexivity. }
  destruct (approve_draft_found now2 {| a_draft_id := draft_id r; a_approved := true |}
              st1 (next_oid st) d Ho Hd) as (pre & post & Hl & Hpre & Happ).
  cbn [a_approved] in Happ.
  rewrite bool_decide_eq_false_2 in Happ
    by (intros E; apply set_approval_same in E; destruct E as [_ E]; discriminate E).
  match type of Happ with
  | _ = (_, Some ?s2) => set (st2 := s2) in *
  end.
  assert (Hd2 : find_draft st2 (next_oid st) = Some (set_approval true now2 d))
    by (apply (find_draft_after_approve true now2 st1 (next_oid st) d pre post Hl Hpre
                 (find_draft_matches _ _ _ Hd))).
  destruct (send_email_approved now3 now4 (draft_id r) st2 (next_oid st)
              (set_approval true now2 d) Ho Hd2 eq_refl)
    as (st3 & Hsend & Hsent & _).
  exists r, st1, st2, (hex24 (next_oid st2)), st3,
    (sent_record_of (set_approval true now2 d) (VOid (next_oid st2)) now3).
  split; [exact Hdraft|]. split; [exact Happ|]. split; [exact Hsend|].
  split; [exact Hsent|]. repeat split; reflexivity.
Qed.

End Pipeline.

Lemma draft_approve_send_witness :
  exists r st1 st2 sid st3 rec,
    draft_email no_format_object 40 example_request (Some (example_store false))
      = (Return r, Some st1) /\
    approve_draft 41 {| a_draft_id := draft_id r; a_approved := true |} (Some st1)
      = (Return {| updated := true |}, Some st2) /\
    send_email 42 43 {| s_req_draft_id := draft_id r |} (Some st2)
      = (Return {| sent_id := sid |}, Some st3) /\
    sent st3 = sent (example_store false) ++ [rec] /\
    s_to rec = VStr "jane@x.com" /\
    s_subject rec = VStr "Need psych expert" /\
    s_body rec = VStr (body r) /\
    s_draft_id rec = draft_id r /\
    sent_at rec = 42.
Proof.
  apply (draft_approve_send no_format_object 40 41 42 43 example_request
           (example_store false) example_query
           default_intro_template default_signature_template
           jane_intro rendered_default_signature).
  - apply example_store_ids_below.
  - vm_compute. reflexivity.
  - vm_compute. reflexivity.
  - reflexivity.
  - reflexivity.
  - vm_compute. reflexivity.
  - vm_compute. reflexivity.
Defined.

Lemma in_assigned_ids (items : list (value -> QueryDoc)) :
  forall n id,
    In id (assigned_ids items n) ->
    exists j, (j < List.length items)%nat /\ id = hex24 (n + N.of_nat j)%N.
Proof.
  induction items as [|it items IH]; intros n id Hin; [destruct Hin|].
  destruct Hin as [<-|Hin].
  - exists 0%nat. split; [simpl; lia|]. f_equal. lia.
  - destruct (IH _ _ Hin) as (j & Hj & ->).
    exists (S j). split; [simpl; lia|]. f_equal. lia.
Qed.

Lemma in_assigned_sample now (l : list Z) :
  forall n q,
    In q (assigned (map (sample_item now) l) n) ->
    exists i v, In i l /\ q = sample_item now i v.
Proof.
  induction l as [|i l IH]; intros n q Hin; [destruct Hin|].
  destruct Hin as [<-|Hin].
  - exists i, (VOid n). split; [left; reflexivity|reflexivity].
  - destruct (IH _ _ Hin) as (i' & v & Hi & ->).
    exists i', v. split; [right; exact Hi|reflexivity].
Qed.

(** X22: /parse composes with /pitch through the returned ids.  In a
    well-keyed store that stays within 200 queries, every id answered by
    /parse is accepted by /pitch: the query found carries that id, is one
    of the new queries, numbered [i+1] for some [0 <= i < limit], with
    status "new", and the pitch is written for its subject. *)
Theorem parse_then_pitch now now' lim st :
  ids_below st ->
  0 <= lim ->
  (next_oid st + Z.to_N lim <= 2 ^ 96)%N ->
  Z.of_nat (List.length (query st)) + lim <= 200 ->
  exists r st1,
    parse_newsletters now {| limit := lim |} (Some st) = (Return r, Some st1) /\
    forall id, In id (ids r) ->
      exists q i pr st2,
        reachable_query st1 id = Some q /\
        str (q_id q) = id /\
        0 <= i < lim /\
        q_subject q = Some (VStr ("Call for psychology expert comment #"
                                  +:+ str_int (i + 1))) /\
        status q = Some (VStr "new") /\
        generate_pitch now' {| query_id := id |} (Some st1) = (Return pr, Some st2) /\
        pitch_content pr = join LF (pitch_lines (resolved_pitch_style st1) q).
Proof.
  intros Hids Hlim Hcap Hlen.
  set (items := map (sample_item now) (range lim)).
  set (n := next_oid st) in *.
  destruct (insert_items_run items [] st) as (st1 & Hrun & Hq & _).
  fold n in Hrun, Hq.
  eexists. exists st1. split.
  { unfold parse_newsletters, bind, ret. cbn [limit]. fold items. rewrite Hrun.
    reflexivity. }
  cbn [ids app]. intros id Hin.
  destruct (in_assigned_ids items n id Hin) as (j & Hj & Hid).
  assert (Hitems : List.length items = Z.to_nat lim)
    by (unfold items, range; rewrite length_map, length_seqZ; reflexivity).
  destruct (assigned_sample_items now (range lim) n) as (Hnewlen & _ & Hmap).
  fold items in Hnewlen, Hmap.
  (* no older query carries the id *)
  assert (Hold : find_query (query st) id = None).
  { apply find_query_none. intros q0 Hq0 E.
    destruct Hids as (Hqs & _). rewrite Forall_forall in Hqs.
    destruct (Hqs q0 (proj2 (list_elem_of_In _ _) Hq0)) as (o & Ho & Hlt).
    rewrite Ho, Hid in E. cbn [str] in E. fold n in Hlt.
    apply hex24_inj in E; lia. }
  (* the scan reaches every query *)
  assert (Hreach : reachable_query st1 id = find_query (assigned items n) id).
  { unfold reachable_query. rewrite Hq.
    rewrite take_ge by (rewrite length_app, Hnewlen;
                        unfold range; rewrite length_seqZ; lia).
    unfold find_query. rewrite find_app_none by exact Hold. reflexivity. }
  destruct (find_query (assigned items n) id) as [q|] eqn:Hfind.
  - pose proof Hfind as Hsome. unfold find_query in Hsome.
    apply List.find_some in Hsome. destruct Hsome as [Hinq Heq].
    apply String.eqb_eq in Heq.
    destruct (in_assigned_sample now (range lim) n q Hinq) as (i & v & Hi & ->).
    apply list_elem_of_In, elem_of_seqZ in Hi.
    exists (sample_item now i v), i. eexists. eexists.
    split; [exact Hreach|]. split; [exact Heq|]. split; [lia|].
    split; [reflexivity|]. split; [reflexivity|].
    rewrite (generate_pitch_found now' {| query_id := id |} st1
               (sample_item now i v) Hreach).
    split; reflexivity.
  - exfalso. rewrite <- Hmap in Hin. apply List.in_map_iff in Hin.
    destruct Hin as (q & Hqid & Hinq).
    unfold find_query in Hfind.
    pose proof (List.find_none _ _ Hfind q Hinq) as Hno. cbn in Hno.
    rewrite Hqid, String.eqb_refl in Hno. discriminate Hno.
Qed.

Lemma parse_then_pitch_witness :
  exists r st1,
    parse_newsletters 5 {| limit := 3 |} (Some (example_store false))
      = (Return r, Some st1) /\
    forall id, In id (ids r) ->
      exists q i pr st2,
        reachable_query st1 id = Some q /\
        str (q_id q) = id /\
        0 <= i < 3 /\
        q_subject q = Some (VStr ("Call for psychology expert comment #"
                                  +:+ str_int (i + 1))) /\
        status q = Some (VStr "new") /\
        generate_pitch 6 {| query_id := id |} (Some st1) = (Return pr, Some st2) /\
        pitch_content pr = join LF (pitch_lines (resolved_pitch_style st1) q).
Proof.
  apply (parse_then_pitch 5 6 3 (example_store false)).
  - apply example_store_ids_below.
  - lia.
  - vm_compute. discriminate.
  - vm_compute. discriminate.
Defined.

(** ** /test *)

(** X23: the diagnostic report of /test lists at most ten collections,
    the first ten the database names and none when there is no database
    or the listing fails; its [database_url] and [database_name] only say
    whether the two environment variables are set, whatever the database
    handle holds, its name included; and [connection_status] is
    "Connected" exactly when there is a database. *)
Theorem test_database_report db getenv :
  (List.length (collections (test_database db getenv)) <= 10)%nat /\
  (forall h names, db = Some h -> list_collection_names h = inr names ->
     collections (test_database db getenv) = take 10 names) /\
  (forall h msg, db = Some h -> list_collection_names h = inl msg ->
     collections (test_database db getenv) = []) /\
  (db = None -> collections (test_database db getenv) = []) /\
  database_url (test_database db getenv) = Some (set_flag (getenv "DATABASE_URL")) /\
  database_name (test_database db getenv) = Some (set_flag (getenv "DATABASE_NAME")) /\
  (connection_status (test_database db getenv) = "Connected" <-> db <> None).
Proof.
  unfold test_database.
  destruct db as [h|].
  - destruct (list_collection_names h) as [msg|names] eqn:Hl; cbn.
    + repeat split; try discriminate; try reflexivity; try lia.
      intros h' names [= <-]. rewrite Hl. discriminate.
    + repeat split; try discriminate; try reflexivity.
      * rewrite length_take. lia.
      * intros h' names' [= <-]. rewrite Hl. intros [= <-]. reflexivity.
      * intros h' msg [= <-]. rewrite Hl. discriminate.
  - cbn. repeat split; try discriminate; try reflexivity; try lia.
    intros H. contradiction.
Qed.
